(** * Linear-programming laboratory: production mix and transportation

    A shallow embedding of [task.py].  The program states two fixed linear
    programs, hands each to [scipy.optimize.linprog], prints a report and
    draws a chart.

    Numbers.  Python floats are idealised as exact rationals ([Q], compared
    with [==]); Python ints that stay ints in the source are [Z].

    The solver.  [linprog] is an external collaborator.  It enters every
    definition as a function argument, and the theorems that need more than
    its result's shape assume the contract [linprog_spec]: success is
    reported exactly on programs that have an optimum, the returned vector is
    then an optimum, and [fun] is the objective at that vector. *)

From Stdlib Require Import PeanoNat Lia QArith Qabs Qminmax Lqa String List Bool.
Import ListNotations.
Local Open Scope Q_scope.

(** ** Vectors and the interface of [linprog] *)

Definition vec := list Q.

(** [row @ x] for one row. *)
Fixpoint dot (u v : vec) : Q :=
  match u, v with
  | a :: u', b :: v' => a * b + dot u' v'
  | _, _ => 0
  end.

(** A pair [(lo, hi)] of [bounds]; Python's [None] is [None]. *)
Definition bound := (option Q * option Q)%type.

Record LinearProgram := mkLP {
  lp_c : vec;
  lp_A_ub : list vec;
  lp_b_ub : vec;
  lp_A_eq : list vec;
  lp_b_eq : vec;
  lp_bounds : list bound
}.

(** The fields of scipy's [OptimizeResult] that the program reads. *)
Record OptimizeResult := mkResult {
  res_x : vec;
  res_fun : Q;
  res_success : bool;
  res_message : string
}.

Definition Qltb (a b : Q) : bool := negb (Qle_bool b a).

Fixpoint all2 {A B : Type} (p : A -> B -> bool) (l1 : list A) (l2 : list B) : bool :=
  match l1, l2 with
  | [], [] => true
  | a :: l1', b :: l2' => p a b && all2 p l1' l2'
  | _, _ => false
  end.

Definition in_bound (bd : bound) (v : Q) : bool :=
  match fst bd with Some lo => Qle_bool lo v | None => true end
  && match snd bd with Some hi => Qle_bool v hi | None => true end.

(** [A_ub @ x <= b_ub], [A_eq @ x == b_eq] and the bounds, for a vector of
    the program's dimension. *)
Definition feasibleb (lp : LinearProgram) (xv : vec) : bool :=
  (length xv =? length (lp_c lp))%nat
  && all2 (fun row b => Qle_bool (dot row xv) b) (lp_A_ub lp) (lp_b_ub lp)
  && all2 (fun row b => Qeq_bool (dot row xv) b) (lp_A_eq lp) (lp_b_eq lp)
  && all2 in_bound (lp_bounds lp) xv.

Definition feasible (lp : LinearProgram) (xv : vec) : Prop :=
  feasibleb lp xv = true.

Definition optimal (lp : LinearProgram) (xv : vec) : Prop :=
  feasible lp xv /\
  forall y, feasible lp y -> dot (lp_c lp) xv <= dot (lp_c lp) y.

(** What the program relies on from [linprog]. *)
Record linprog_spec (lp : LinearProgram) (r : OptimizeResult) : Prop := {
  spec_complete : (exists xv, optimal lp xv) -> res_success r = true;
  spec_optimal : res_success r = true -> optimal lp (res_x r);
  spec_fun : res_success r = true -> res_fun r == dot (lp_c lp) (res_x r)
}.

(** The shape scipy guarantees for a successful result. *)
Definition well_shaped (lp : LinearProgram) (r : OptimizeResult) : Prop :=
  res_success r = true -> length (res_x r) = length (lp_c lp).

(** ** Console output, charts and exceptions *)

Inductive resource := CpuTime | Battery.

Inductive warehouse := Sklad1 | Sklad2.
Inductive base := Alpha | Beta | Gamma.

Inductive colour := Blue | Red.

Record arrow := mkArrow {
  arrow_from : warehouse;
  arrow_to : base;
  arrow_quantity : Q;
  arrow_cost : Z;
  arrow_width : Q;
  arrow_colour : colour
}.

Inductive chart :=
| Chart1 (vertices : list (Z * Z)) (p_levels : list Q) (optimum : Q * Q) (profit : Q)
| Chart2 (arrows : list arrow) (total_cost : Q).

(** The effects of a run in order.  One constructor per block of [print]
    calls, carrying the values the block formats; [CallLinprog] is the call
    of the solver and [SaveFig] is [plt.savefig]. *)
Inductive event :=
| Title
| Intro1
| Intro2
| Balance (supply demand : Z)
| Model2
| Solved1 (x1 x2 profit : Q)
| Usage (res : resource) (used : Q) (limit : Z) (full : bool)
| Produce (x1 x2 : Q)
| Deficient (names : list resource)
| Plan (w : warehouse) (b : base) (qty cost : Q)
| MinCost (total : Q)
| CheckRow (lhs : Q) (rhs : Z)
| UsedHeader
| UsedRoute (w : warehouse) (b : base) (qty : Q) (cost : Z) (amount : Q)
| UnusedHeader
| UnusedRoute (w : warehouse) (b : base) (qty : Q) (cost : Z)
| CallLinprog (lp : LinearProgram)
| SaveFig (file : string) (c : chart)
| ErrorLine (message : string)
| Separator
| Footer.

Inductive exn := ValueError | IndexError.

(** Output written so far, and either a value or the exception raised. *)
Definition M (A : Type) : Type := (list event * (exn + A))%type.

Definition ret {A} (a : A) : M A := ([], inr a).
Definition raise {A} (e : exn) : M A := ([], inl e).
Definition print (e : event) : M unit := ([e], inr tt).

Definition bind {A B} (m : M A) (k : A -> M B) : M B :=
  match snd m with
  | inl e => (fst m, inl e)
  | inr a => let r := k a in (fst m ++ fst r, snd r)
  end.

Notation "x <- m ;; k" := (bind m (fun x => k))
  (at level 61, m at next level, right associativity).
Notation "m ;; k" := (bind m (fun _ => k))
  (at level 61, right associativity).

(** [linprog(c, A_ub=..., b_ub=..., A_eq=..., b_eq=..., bounds=...)]. *)
Definition call (linprog : LinearProgram -> OptimizeResult) (lp : LinearProgram)
  : M OptimizeResult :=
  ([CallLinprog lp], inr (linprog lp)).

Definition output {A} (m : M A) : list event := fst m.
Definition outcome {A} (m : M A) : exn + A := snd m.

(** A run whose output is preceded by the lines [l]. *)
Definition prepend {A} (l : list event) (m : M A) : M A :=
  (l ++ output m, outcome m).

Fixpoint for_each {A} (l : list A) (body : A -> M unit) : M unit :=
  match l with
  | [] => ret tt
  | a :: l' => body a ;; for_each l' body
  end.

(** [v[i]]: out of range raises [IndexError]. *)
Definition index (v : vec) (i : nat) : M Q :=
  match nth_error v i with
  | Some a => ret a
  | None => raise IndexError
  end.

(** [a, b = v] and [a, b, c, d, e, f = v]: any other length raises
    [ValueError]. *)
Definition unpack2 (v : vec) : M (Q * Q) :=
  match v with
  | [a; b] => ret (a, b)
  | _ => raise ValueError
  end.

Definition unpack6 (v : vec) : M (Q * Q * Q * Q * Q * Q) :=
  match v with
  | [a; b; c; d; e; f] => ret (a, b, c, d, e, f)
  | _ => raise ValueError
  end.

(** [np.linspace(start, stop, num)]. *)
Definition linspace (start stop : Q) (num : nat) : list Q :=
  map (fun i => start + inject_Z (Z.of_nat i)
                        * ((stop - start) / inject_Z (Z.of_nat (num - 1))))
      (seq 0 num).

(** The literal [1e-6]. *)
Definition tol : Q := 1 # 1000000.

(** ** Task 1: production mix *)

(** [vertices] of [visualize_task1]. *)
Definition vertices : list (Z * Z) := [(0, 0); (0, 75); (30, 60); (120, 0)]%Z.

Definition visualize_task1 (optimal_point : vec) : M unit :=
  p0 <- index optimal_point 0 ;;
  p1 <- index optimal_point 1 ;;
  let profit := 8000 * p0 + 12000 * p1 in
  print (SaveFig "task1.png"
           (Chart1 vertices (linspace (profit * (1 # 5)) profit 5) (p0, p1) profit)).

Definition task1_lp : LinearProgram :=
  let c := [- (8000); - (12000)] in
  let A_ub := [[2; 3]; [1; 2]] in
  let b_ub := [240; 150] in
  let bounds := [(Some 0, None); (Some 0, None)] in
  mkLP c A_ub b_ub [] [] bounds.

(** [abs(used - limit) < 1e-6], the test of lines 70, 72, 78 and 80. *)
Definition binding (used limit : Q) : bool := Qltb (Qabs (used - limit)) tol.

Definition solve_task1 (linprog : LinearProgram -> OptimizeResult)
  : M (option OptimizeResult) :=
  print Intro1 ;;
  result <- call linprog task1_lp ;;
  if res_success result then
    xs <- unpack2 (res_x result) ;;
    let '(x1, x2) := xs in
    let profit := - res_fun result in
    print (Solved1 x1 x2 profit) ;;
    let cpu_used := 2 * x1 + 3 * x2 in
    let battery_used := x1 + 2 * x2 in
    print (Usage CpuTime cpu_used 240 (binding cpu_used 240)) ;;
    print (Usage Battery battery_used 150 (binding battery_used 150)) ;;
    print (Produce x1 x2) ;;
    let deficient := [] in
    let deficient :=
      if binding cpu_used 240 then deficient ++ [CpuTime] else deficient in
    let deficient :=
      if binding battery_used 150 then deficient ++ [Battery] else deficient in
    print (Deficient deficient) ;;
    visualize_task1 (res_x result) ;;
    ret (Some result)
  else
    print (ErrorLine (res_message result)) ;;
    ret None.

(** ** Task 2: transportation *)

Definition route := (warehouse * base * Q * Z)%type.

Definition draw_flow (f : route) : list arrow :=
  let '(w, b, quantity, cost) := f in
  if Qltb tol quantity then
    let width := Qmax 2 (quantity / 25) in
    let color := if (cost <=? 7)%Z then Blue else Red in
    [mkArrow w b quantity cost width color]
  else [].

Definition visualize_task2 (solution : vec) (total_cost : Q) : M unit :=
  xs <- unpack6 solution ;;
  let '(x11, x12, x13, x21, x22, x23) := xs in
  let flows := [ (Sklad1, Alpha, x11, 8%Z); (Sklad1, Beta, x12, 6%Z);
                 (Sklad1, Gamma, x13, 10%Z); (Sklad2, Alpha, x21, 9%Z);
                 (Sklad2, Beta, x22, 7%Z); (Sklad2, Gamma, x23, 5%Z) ] in
  print (SaveFig "task2.png" (Chart2 (flat_map draw_flow flows) total_cost)).

Definition supply : Z := 150 + 250.
Definition demand : Z := 120 + 180 + 100.

(** The balance step of lines 180-182 as a function of the two totals it
    has just computed: one printed line that shows both totals joined by an
    equals sign, followed by the literal verdict that the problem is
    balanced.  [Balance s d] is that line. *)
Definition report_balance (supply demand : Z) : M unit :=
  print (Balance supply demand).

Definition task2_lp : LinearProgram :=
  let c := [8; 6; 10; 9; 7; 5] in
  let A_eq := [ [1; 1; 1; 0; 0; 0];
                [0; 0; 0; 1; 1; 1];
                [1; 0; 0; 1; 0; 0];
                [0; 1; 0; 0; 1; 0];
                [0; 0; 1; 0; 0; 1] ] in
  let b_eq := [150; 250; 120; 180; 100] in
  let bounds := repeat (Some 0, None) 6 in
  mkLP c [] [] A_eq b_eq bounds.

Definition routes_of (xs : Q * Q * Q * Q * Q * Q) : list route :=
  let '(x11, x12, x13, x21, x22, x23) := xs in
  [ (Sklad1, Alpha, x11, 8%Z); (Sklad1, Beta, x12, 6%Z);
    (Sklad1, Gamma, x13, 10%Z); (Sklad2, Alpha, x21, 9%Z);
    (Sklad2, Beta, x22, 7%Z); (Sklad2, Gamma, x23, 5%Z) ].

Definition print_used (r : route) : M unit :=
  let '(w, b, qty, cost) := r in
  if Qltb tol qty then print (UsedRoute w b qty cost (qty * inject_Z cost))
  else ret tt.

Definition print_unused (r : route) : M unit :=
  let '(w, b, qty, cost) := r in
  if Qle_bool qty tol then print (UnusedRoute w b qty cost)
  else ret tt.

Definition solve_task2 (linprog : LinearProgram -> OptimizeResult)
  : M (option OptimizeResult) :=
  print Intro2 ;;
  report_balance supply demand ;;
  print Model2 ;;
  result <- call linprog task2_lp ;;
  if res_success result then
    xs <- unpack6 (res_x result) ;;
    let '(x11, x12, x13, x21, x22, x23) := xs in
    print (Plan Sklad1 Alpha x11 (8 * x11)) ;;
    print (Plan Sklad1 Beta x12 (6 * x12)) ;;
    print (Plan Sklad1 Gamma x13 (10 * x13)) ;;
    print (Plan Sklad2 Alpha x21 (9 * x21)) ;;
    print (Plan Sklad2 Beta x22 (7 * x22)) ;;
    print (Plan Sklad2 Gamma x23 (5 * x23)) ;;
    print (MinCost (res_fun result)) ;;
    print (CheckRow (x11 + x12 + x13) 150) ;;
    print (CheckRow (x21 + x22 + x23) 250) ;;
    print (CheckRow (x11 + x21) 120) ;;
    print (CheckRow (x12 + x22) 180) ;;
    print (CheckRow (x13 + x23) 100) ;;
    let routes := routes_of xs in
    print UsedHeader ;;
    for_each routes print_used ;;
    print UnusedHeader ;;
    for_each routes print_unused ;;
    visualize_task2 (res_x result) (res_fun result) ;;
    ret (Some result)
  else
    print (ErrorLine (res_message result)) ;;
    ret None.

(** ** The main program *)

Definition main (linprog : LinearProgram -> OptimizeResult)
  : M (option OptimizeResult * option OptimizeResult) :=
  print Title ;;
  result1 <- solve_task1 linprog ;;
  print Separator ;;
  result2 <- solve_task2 linprog ;;
  print Footer ;;
  ret (result1, result2).

(** ** The constraint systems as half-planes *)

(** The model of lines 25-27 with the memory row that the comment of lines
    41-42 leaves out of [A_ub]. *)
Definition task1_full_lp : LinearProgram :=
  mkLP (lp_c task1_lp)
       ([2; 3] :: [4; 6] :: [1; 2] :: nil) (240 :: 480 :: 150 :: nil)
       [] [] (lp_bounds task1_lp).

(** [a1 * x1 + a2 * x2 <= b] as [(a1, a2, b)]. *)
Definition halfplane := (Q * Q * Q)%type.

Definition bound_planes (i : nat) (bd : bound) : list halfplane :=
  let e1 := if (i =? 0)%nat then 1 else 0 in
  let e2 := if (i =? 1)%nat then 1 else 0 in
  match fst bd with Some lo => [(- e1, - e2, - lo)] | None => [] end
  ++ match snd bd with Some hi => [(e1, e2, hi)] | None => [] end.

(** Every inequality of a two-variable program: the rows of [A_ub], then the
    bounds. *)
Definition halfplanes (lp : LinearProgram) : list halfplane :=
  map (fun rb => (nth 0 (fst rb) 0, nth 1 (fst rb) 0, snd rb))
      (combine (lp_A_ub lp) (lp_b_ub lp))
  ++ flat_map (fun ib => bound_planes (fst ib) (snd ib))
       (combine (seq 0 (length (lp_bounds lp))) (lp_bounds lp)).

(** The point lies on the boundary line of the half-plane. *)
Definition on_boundary (h : halfplane) (p : Q * Q) : Prop :=
  let '(a1, a2, b) := h in a1 * fst p + a2 * snd p == b.

Fixpoint pairs {A} (l : list A) : list (A * A) :=
  match l with
  | [] => []
  | a :: l' => map (pair a) l' ++ pairs l'
  end.

(** The common point of two boundary lines, by Cramer's rule. *)
Definition meet (h1 h2 : halfplane) : option (Q * Q) :=
  let '(a1, a2, c1) := h1 in
  let '(b1, b2, c2) := h2 in
  let det := a1 * b2 - a2 * b1 in
  if Qeq_bool det 0 then None
  else Some ((c1 * b2 - a2 * c2) / det, (a1 * c2 - c1 * b1) / det).

(** The spec's generic construction of the polygon: intersect every pair of
    constraint boundaries and keep the feasible points. *)
Definition extreme_points (lp : LinearProgram) : list (Q * Q) :=
  filter (fun p => feasibleb lp [fst p; snd p])
    (flat_map (fun hh => match meet (fst hh) (snd hh) with
                         | Some p => [p]
                         | None => []
                         end)
              (pairs (halfplanes lp))).

Definition inject_pt (v : Z * Z) : Q * Q := (inject_Z (fst v), inject_Z (snd v)).

Definition pt_eq (p q : Q * Q) : Prop := fst p == fst q /\ snd p == snd q.

Definition pt_eqb (p q : Q * Q) : bool :=
  Qeq_bool (fst p) (fst q) && Qeq_bool (snd p) (snd q).

(** ** Report lines of the two route loops *)

Definition used_lines (routes : list route) : list event :=
  flat_map (fun r => output (print_used r)) routes.

Definition unused_lines (routes : list route) : list event :=
  flat_map (fun r => output (print_unused r)) routes.

(** ** Solver results used as test inputs *)

Definition result_30_60 : OptimizeResult :=
  mkResult [30; 60] (- (960000)) true "Optimization terminated successfully.".

Definition result_120_0 : OptimizeResult :=
  mkResult [120; 0] (- (960000)) true "Optimization terminated successfully.".

Definition result_plan : OptimizeResult :=
  mkResult [120; 30; 0; 0; 150; 100] 2690 true
           "Optimization terminated successfully.".

Definition result_infeasible : OptimizeResult :=
  mkResult [] 0 false "The problem is infeasible.".

(** A solver stub that answers the two-variable program with [r1] and any
    other program with [r2]. *)
Definition scripted_linprog (r1 r2 : OptimizeResult)
  : LinearProgram -> OptimizeResult :=
  fun lp => if (length (lp_c lp) =? 2)%nat then r1 else r2.

(** ** The curves of the Task 1 chart *)

(** [x1 = np.linspace(0, 160, 400)] of [visualize_task1]. *)
Definition x1_grid : list Q := linspace 0 160 400.

(** [np.maximum((240 - 2 * x1) / 3, 0)] and [np.maximum((150 - x1) / 2, 0)]
    at one abscissa. *)
Definition x2_cpu (x1 : Q) : Q := Qmax ((240 - 2 * x1) / 3) 0.
Definition x2_battery (x1 : Q) : Q := Qmax ((150 - x1) / 2) 0.

(** [(p_level - 8000 * x1) / 12000] at one abscissa. *)
Definition x2_profit (p_level x1 : Q) : Q := (p_level - 8000 * x1) / 12000.

(** The three kinds of polyline that [ax.plot] receives. *)
Definition cpu_line : list (Q * Q) := map (fun x1 => (x1, x2_cpu x1)) x1_grid.
Definition battery_line : list (Q * Q) :=
  map (fun x1 => (x1, x2_battery x1)) x1_grid.
Definition isoprofit_line (p_level : Q) : list (Q * Q) :=
  map (fun x1 => (x1, x2_profit p_level x1)) x1_grid.

(** [ax.set_xlim(-5, 130)] and [ax.set_ylim(-5, 90)]. *)
Definition task1_xlim : Q * Q := (- (5), 130).
Definition task1_ylim : Q * Q := (- (5), 90).

(** [xytext] of the profit annotation. *)
Definition annotation_xytext (optimal_point : Q * Q) : Q * Q :=
  (fst optimal_point + 5, snd optimal_point + 18).

Definition in_window (p : Q * Q) : Prop :=
  fst task1_xlim <= fst p /\ fst p <= snd task1_xlim /\
  fst task1_ylim <= snd p /\ snd p <= snd task1_ylim.

(** ** Convex combinations of the polygon's vertices *)

Definition combination (w : list Q) (pts : list (Z * Z)) : Q * Q :=
  (dot w (map (fun v => inject_Z (fst v)) pts),
   dot w (map (fun v => inject_Z (snd v)) pts)).

(** [p] is a combination of [pts] with non-negative weights that sum to 1. *)
Definition in_hull (pts : list (Z * Z)) (p : Q * Q) : Prop :=
  exists w : list Q,
    length w = length pts /\
    Forall (fun a => 0 <= a) w /\
    dot w (repeat 1 (length pts)) == 1 /\
    pt_eq p (combination w pts).

(** ** Reading a run's effects *)

(** The programs handed to the solver, in call order. *)
Definition calls (out : list event) : list LinearProgram :=
  flat_map (fun e => match e with CallLinprog lp => [lp] | _ => [] end) out.

(** The files written by [plt.savefig], in order. *)
Definition figures (out : list event) : list string :=
  flat_map (fun e => match e with SaveFig file _ => [file] | _ => [] end) out.

Definition route_used (r : route) : bool :=
  let '(_, _, qty, _) := r in Qltb tol qty.

Definition arrow_route (a : arrow) : route :=
  (arrow_from a, arrow_to a, arrow_quantity a, arrow_cost a).

Definition used_line (r : route) : event :=
  let '(w, b, qty, cost) := r in UsedRoute w b qty cost (qty * inject_Z cost).

Definition unused_line (r : route) : event :=
  let '(w, b, qty, cost) := r in UnusedRoute w b qty cost.

Definition result_short : OptimizeResult :=
  mkResult [30] (- (240000)) true "Optimization terminated successfully.".


(** ** What verifying the balance would mean *)


(** * Properties *)

(** ** The monad *)

Lemma output_bind {A B} (m : M A) (k : A -> M B) :
  output (bind m k) =
  match outcome m with
  | inl _ => output m
  | inr a => (output m ++ output (k a))%list
  end.
Proof. unfold bind, output, outcome. destruct (snd m); reflexivity. Qed.

Lemma outcome_bind {A B} (m : M A) (k : A -> M B) :
  outcome (bind m k) =
  match outcome m with
  | inl e => inl e
  | inr a => outcome (k a)
  end.
Proof. unfold bind, outcome. destruct (snd m); reflexivity. Qed.

Lemma bind_value {A B} (l : list event) (a : A) (k : A -> M B) :
  bind (l, inr a) k = prepend l (k a).
Proof. reflexivity. Qed.

Lemma bind_print {B} (e : event) (k : unit -> M B) :
  bind (print e) k = prepend [e] (k tt).
Proof. reflexivity. Qed.

Lemma bind_call {B} linprog lp (k : OptimizeResult -> M B) :
  bind (call linprog lp) k = prepend [CallLinprog lp] (k (linprog lp)).
Proof. reflexivity. Qed.

Lemma M_eta {A} (m : M A) : m = (output m, outcome m).
Proof. destruct m; reflexivity. Qed.

Lemma bind_ret {A B} (a : A) (k : A -> M B) : bind (ret a) k = k a.
Proof. unfold bind, ret. simpl. destruct (k a); reflexivity. Qed.

(** ** Comparisons *)

Lemma Qltb_iff (a b : Q) : Qltb a b = true <-> a < b.
Proof.
  unfold Qltb. rewrite negb_true_iff, <- not_true_iff_false, Qle_bool_iff.
  split; intro H; lra.
Qed.

Lemma binding_iff (used limit : Q) :
  binding used limit = true <-> Qabs (used - limit) < tol.
Proof. apply Qltb_iff. Qed.

Lemma binding_bounds (used limit : Q) :
  binding used limit = true <-> limit - tol < used /\ used < limit + tol.
Proof.
  rewrite binding_iff. split.
  - intro H. apply Qabs_Qlt_condition in H. lra.
  - intro H. apply Qabs_Qlt_condition. lra.
Qed.

(** ** Feasible sets of the two programs, spelled out *)

Lemma feasible_task1_iff (xv : vec) :
  feasible task1_lp xv <->
  exists x1 x2, xv = [x1; x2] /\
    2 * x1 + 3 * x2 <= 240 /\ x1 + 2 * x2 <= 150 /\ 0 <= x1 /\ 0 <= x2.
Proof.
  unfold feasible, feasibleb, in_bound. split.
  - destruct xv as [|x1 [|x2 [|x3 t]]]; simpl; try discriminate.
    rewrite !andb_true_iff, !Qle_bool_iff.
    intros H. exists x1, x2. repeat split; try lra.
  - intros (x1 & x2 & -> & H1 & H2 & H3 & H4). simpl.
    rewrite !andb_true_iff, !Qle_bool_iff. repeat split; try lra.
Qed.

Lemma feasible_task1_full_iff (xv : vec) :
  feasible task1_full_lp xv <->
  exists x1 x2, xv = [x1; x2] /\
    2 * x1 + 3 * x2 <= 240 /\ 4 * x1 + 6 * x2 <= 480 /\
    x1 + 2 * x2 <= 150 /\ 0 <= x1 /\ 0 <= x2.
Proof.
  unfold feasible, feasibleb, in_bound. split.
  - destruct xv as [|x1 [|x2 [|x3 t]]]; simpl; try discriminate.
    rewrite !andb_true_iff, !Qle_bool_iff.
    intros H. exists x1, x2. repeat split; try lra.
  - intros (x1 & x2 & -> & H1 & H2 & H3 & H4 & H5). simpl.
    rewrite !andb_true_iff, !Qle_bool_iff. repeat split; try lra.
Qed.

Lemma feasible_task2_iff (xv : vec) :
  feasible task2_lp xv <->
  exists x11 x12 x13 x21 x22 x23, xv = [x11; x12; x13; x21; x22; x23] /\
    x11 + x12 + x13 == 150 /\ x21 + x22 + x23 == 250 /\
    x11 + x21 == 120 /\ x12 + x22 == 180 /\ x13 + x23 == 100 /\
    0 <= x11 /\ 0 <= x12 /\ 0 <= x13 /\ 0 <= x21 /\ 0 <= x22 /\ 0 <= x23.
Proof.
  unfold feasible, feasibleb, in_bound. split.
  - destruct xv as [|x11 [|x12 [|x13 [|x21 [|x22 [|x23 [|x7 t]]]]]]];
      simpl; try discriminate.
    rewrite !andb_true_iff, !Qle_bool_iff, !Qeq_bool_iff.
    intros H. exists x11, x12, x13, x21, x22, x23. repeat split; try lra.
  - intros (x11 & x12 & x13 & x21 & x22 & x23 & -> & H). simpl.
    rewrite !andb_true_iff, !Qle_bool_iff, !Qeq_bool_iff.
    repeat split; try lra.
Qed.

(** ** The optima of the two programs *)

(** The objective of Task 1 is parallel to the CPU row: the optima are the
    feasible points of the edge [2 * x1 + 3 * x2 == 240]. *)
Lemma optimal_task1_iff (xv : vec) :
  optimal task1_lp xv <->
  exists x1 x2, xv = [x1; x2] /\
    2 * x1 + 3 * x2 == 240 /\ x1 + 2 * x2 <= 150 /\ 0 <= x1 /\ 0 <= x2.
Proof.
  unfold optimal. split.
  - intros [Hf Hmin].
    apply feasible_task1_iff in Hf as (x1 & x2 & -> & H1 & H2 & H3 & H4).
    exists x1, x2. split; [reflexivity|].
    assert (Hy : feasible task1_lp [30; 60]).
    { apply feasible_task1_iff. exists 30, 60. repeat split; lra. }
    specialize (Hmin _ Hy). simpl in Hmin. repeat split; lra.
  - intros (x1 & x2 & -> & H1 & H2 & H3 & H4). split.
    + apply feasible_task1_iff. exists x1, x2. repeat split; lra.
    + intros y Hy.
      apply feasible_task1_iff in Hy as (y1 & y2 & -> & G1 & G2 & G3 & G4).
      simpl. lra.
Qed.

(** On the feasible set of Task 2 the cost is [2690 + 6 * x13]: the optima
    are the feasible plans that ship nothing from warehouse 1 to Gamma. *)
Lemma optimal_task2_iff (xv : vec) :
  optimal task2_lp xv <->
  exists x11 x12 x13 x21 x22 x23, xv = [x11; x12; x13; x21; x22; x23] /\
    x13 == 0 /\
    x11 + x12 + x13 == 150 /\ x21 + x22 + x23 == 250 /\
    x11 + x21 == 120 /\ x12 + x22 == 180 /\ x13 + x23 == 100 /\
    0 <= x11 /\ 0 <= x12 /\ 0 <= x13 /\ 0 <= x21 /\ 0 <= x22 /\ 0 <= x23.
Proof.
  unfold optimal. split.
  - intros [Hf Hmin].
    apply feasible_task2_iff in Hf
      as (x11 & x12 & x13 & x21 & x22 & x23 & -> & H).
    exists x11, x12, x13, x21, x22, x23. split; [reflexivity|].
    assert (Hy : feasible task2_lp [120; 30; 0; 0; 150; 100]).
    { apply feasible_task2_iff. exists 120, 30, 0, 0, 150, 100.
      repeat split; lra. }
    specialize (Hmin _ Hy). simpl in Hmin. repeat split; lra.
  - intros (x11 & x12 & x13 & x21 & x22 & x23 & -> & H). split.
    + apply feasible_task2_iff. exists x11, x12, x13, x21, x22, x23.
      repeat split; lra.
    + intros y Hy.
      apply feasible_task2_iff in Hy
        as (y11 & y12 & y13 & y21 & y22 & y23 & -> & G).
      simpl. lra.
Qed.

Lemma task1_has_optimum : exists xv, optimal task1_lp xv.
Proof.
  exists [30; 60]. apply optimal_task1_iff. exists 30, 60. repeat split; lra.
Qed.

Lemma task2_has_optimum : exists xv, optimal task2_lp xv.
Proof.
  exists [120; 30; 0; 0; 150; 100]. apply optimal_task2_iff.
  exists 120, 30, 0, 0, 150, 100. repeat split; lra.
Qed.

(** ** The runs of the two tasks, branch by branch *)

Lemma print_used_outcome (r : route) : outcome (print_used r) = inr tt.
Proof. destruct r as [[[w b] qty] cost]. simpl. destruct (Qltb tol qty); reflexivity. Qed.

Lemma print_unused_outcome (r : route) : outcome (print_unused r) = inr tt.
Proof. destruct r as [[[w b] qty] cost]. simpl. destruct (Qle_bool qty tol); reflexivity. Qed.

Lemma for_each_total {A} (l : list A) (body : A -> M unit) :
  (forall a, outcome (body a) = inr tt) ->
  for_each l body = (flat_map (fun a => output (body a)) l, inr tt).
Proof.
  intros Hb. induction l as [|a l IH]; [reflexivity|].
  simpl. rewrite (M_eta (bind _ _)), output_bind, outcome_bind, Hb, IH.
  reflexivity.
Qed.

Lemma solve_task1_failure linprog :
  res_success (linprog task1_lp) = false ->
  solve_task1 linprog =
  ([Intro1; CallLinprog task1_lp; ErrorLine (res_message (linprog task1_lp))],
   inr None).
Proof.
  intros Hs. unfold solve_task1. rewrite bind_print, bind_call. cbv beta.
  rewrite Hs. reflexivity.
Qed.

Lemma solve_task1_success linprog x1 x2 :
  res_success (linprog task1_lp) = true ->
  res_x (linprog task1_lp) = [x1; x2] ->
  solve_task1 linprog =
  ([Intro1; CallLinprog task1_lp;
    Solved1 x1 x2 (- res_fun (linprog task1_lp));
    Usage CpuTime (2 * x1 + 3 * x2) 240 (binding (2 * x1 + 3 * x2) 240);
    Usage Battery (x1 + 2 * x2) 150 (binding (x1 + 2 * x2) 150);
    Produce x1 x2;
    Deficient ((if binding (2 * x1 + 3 * x2) 240 then [CpuTime] else [])
               ++ (if binding (x1 + 2 * x2) 150 then [Battery] else []));
    SaveFig "task1.png"
      (Chart1 vertices
         (linspace ((8000 * x1 + 12000 * x2) * (1 # 5))
                   (8000 * x1 + 12000 * x2) 5)
         (x1, x2) (8000 * x1 + 12000 * x2))],
   inr (Some (linprog task1_lp))).
Proof.
  intros Hs Hx. unfold solve_task1. rewrite bind_print, bind_call. cbv beta.
  rewrite Hs, Hx. unfold unpack2. rewrite bind_ret. cbv beta iota.
  destruct (binding (2 * x1 + 3 * x2) 240), (binding (x1 + 2 * x2) 150);
    reflexivity.
Qed.

Lemma solve_task2_failure linprog :
  res_success (linprog task2_lp) = false ->
  solve_task2 linprog =
  ([Intro2; Balance supply demand; Model2; CallLinprog task2_lp;
    ErrorLine (res_message (linprog task2_lp))],
   inr None).
Proof.
  intros Hs. unfold solve_task2, report_balance. rewrite !bind_print, bind_call. cbv beta.
  rewrite Hs. reflexivity.
Qed.

Lemma solve_task2_success linprog x11 x12 x13 x21 x22 x23 :
  res_success (linprog task2_lp) = true ->
  res_x (linprog task2_lp) = [x11; x12; x13; x21; x22; x23] ->
  solve_task2 linprog =
  ([Intro2; Balance supply demand; Model2; CallLinprog task2_lp;
    Plan Sklad1 Alpha x11 (8 * x11); Plan Sklad1 Beta x12 (6 * x12);
    Plan Sklad1 Gamma x13 (10 * x13); Plan Sklad2 Alpha x21 (9 * x21);
    Plan Sklad2 Beta x22 (7 * x22); Plan Sklad2 Gamma x23 (5 * x23);
    MinCost (res_fun (linprog task2_lp));
    CheckRow (x11 + x12 + x13) 150; CheckRow (x21 + x22 + x23) 250;
    CheckRow (x11 + x21) 120; CheckRow (x12 + x22) 180;
    CheckRow (x13 + x23) 100; UsedHeader]
   ++ used_lines (routes_of (x11, x12, x13, x21, x22, x23))
   ++ [UnusedHeader]
   ++ unused_lines (routes_of (x11, x12, x13, x21, x22, x23))
   ++ [SaveFig "task2.png"
         (Chart2 (flat_map draw_flow (routes_of (x11, x12, x13, x21, x22, x23)))
                 (res_fun (linprog task2_lp)))],
   inr (Some (linprog task2_lp))).
Proof.
  intros Hs Hx. unfold solve_task2, report_balance. rewrite !bind_print, bind_call. cbv beta.
  rewrite Hs, Hx. unfold unpack6. rewrite bind_ret. cbv beta iota.
  rewrite !bind_print. cbv beta.
  rewrite (for_each_total _ _ print_used_outcome).
  rewrite (for_each_total _ _ print_unused_outcome).
  rewrite !bind_value.
  reflexivity.
Qed.

(** ** Task 1: the constraint system *)

(** C5.  The memory constraint [4 * x1 + 6 * x2 <= 480] follows from the
    CPU-time constraint [2 * x1 + 3 * x2 <= 240] for all non-negative
    quantities, so the solved two-row program and the full three-row program
    have the same feasible set. *)
Theorem memory_constraint_redundant :
  (forall x1 x2 : Q,
      0 <= x1 -> 0 <= x2 -> 2 * x1 + 3 * x2 <= 240 -> 4 * x1 + 6 * x2 <= 480)
  /\ (forall xv : vec, feasible task1_lp xv <-> feasible task1_full_lp xv).
Proof.
  split.
  - intros x1 x2 _ _ H. lra.
  - intros xv. rewrite feasible_task1_iff, feasible_task1_full_iff.
    split.
    + intros (x1 & x2 & E & H1 & H2 & H3 & H4).
      exists x1, x2. repeat split; try assumption. lra.
    + intros (x1 & x2 & E & H1 & _ & H2 & H3 & H4).
      exists x1, x2. repeat split; assumption.
Qed.

Lemma memory_constraint_redundant_witness :
  4 * 30 + 6 * 60 <= 480 /\ feasible task1_full_lp [30; 60].
Proof.
  split.
  - apply (proj1 memory_constraint_redundant 30 60); lra.
  - apply (proj2 memory_constraint_redundant [30; 60]). reflexivity.
Defined.

Lemma halfplanes_task1 :
  halfplanes task1_lp = [(2, 3, 240); (1, 2, 150); (- (1), - 0, - 0); (- 0, - (1), - 0)].
Proof. reflexivity. Qed.

Lemma vertex_cases (P : Z * Z -> Prop) :
  (exists v, In v vertices /\ P v) <->
  P (0, 0)%Z \/ P (0, 75)%Z \/ P (30, 60)%Z \/ P (120, 0)%Z.
Proof.
  unfold vertices. simpl. split.
  - intros (v & [<- | [<- | [<- | [<- | []]]]] & H); tauto.
  - intros [H | [H | [H | H]]]; eexists; (split; [|exact H]); tauto.
Qed.

(** C9.  A point is one of the four hardcoded polygon vertices exactly when
    it is feasible for Task 1 and lies on the boundaries of two different
    constraints; the generic construction (intersect every pair of
    boundaries, keep the feasible points) yields the same four points. *)
Theorem vertices_are_extreme_points :
  (forall p : Q * Q,
      (exists v, In v vertices /\ pt_eq p (inject_pt v)) <->
      (feasible task1_lp [fst p; snd p] /\
       exists h1 h2, In (h1, h2) (pairs (halfplanes task1_lp)) /\
                     on_boundary h1 p /\ on_boundary h2 p))
  /\ (forall p, In p (extreme_points task1_lp) ->
                exists v, In v vertices /\ pt_eq p (inject_pt v))
  /\ (forall v, In v vertices ->
                exists p, In p (extreme_points task1_lp) /\ pt_eq p (inject_pt v)).
Proof.
  split; [|split].
  - intros [p1 p2]. rewrite vertex_cases, feasible_task1_iff, halfplanes_task1.
    unfold pt_eq, inject_pt, on_boundary. simpl. unfold inject_Z. split.
    + intros [[E1 E2] | [[E1 E2] | [[E1 E2] | [E1 E2]]]];
        (split; [exists p1, p2; repeat split; lra|]).
      * exists (- (1), - 0, - 0), (- 0, - (1), - 0). simpl. split; [tauto|lra].
      * exists (1, 2, 150), (- (1), - 0, - 0). simpl. split; [tauto|lra].
      * exists (2, 3, 240), (1, 2, 150). simpl. split; [tauto|lra].
      * exists (2, 3, 240), (- 0, - (1), - 0). simpl. split; [tauto|lra].
    + intros [(x1 & x2 & E & H1 & H2 & H3 & H4) (h1 & h2 & Hin & B1 & B2)].
      injection E as -> ->.
      destruct Hin as [E | [E | [E | [E | [E | [E | []]]]]]];
        injection E as <- <-; simpl in B1, B2; lra.
  - intros p Hp. apply vertex_cases. revert p Hp.
    apply Forall_forall. unfold pt_eq, inject_pt.
    repeat constructor; simpl; unfold inject_Z; lra.
  - intros v Hv. revert v Hv. apply Forall_forall.
    unfold vertices, pt_eq, inject_pt.
    repeat constructor; simpl; unfold inject_Z.
    + exists (0, 0). split; [vm_compute; tauto | simpl; lra].
    + exists (0 # 2, 150 # 2). split; [vm_compute; tauto | simpl; lra].
    + exists (30, 60). split; [vm_compute; tauto | simpl; lra].
    + exists (240 # 2, 0 # 2). split; [vm_compute; tauto | simpl; lra].
Qed.

Lemma vertices_are_extreme_points_witness :
  feasible task1_lp [30; 60] /\
  exists v, In v vertices /\ pt_eq (240 # 2, 0 # 2) (inject_pt v).
Proof.
  split.
  - apply (proj1 vertices_are_extreme_points (30, 60)).
    exists (30, 60)%Z. split; [simpl; tauto | split; reflexivity].
  - apply (proj1 (proj2 vertices_are_extreme_points) (240 # 2, 0 # 2)).
    vm_compute. tauto.
Defined.

(** ** Task 1: the solution *)

Lemma task1_contract linprog :
  linprog_spec task1_lp (linprog task1_lp) ->
  res_success (linprog task1_lp) = true /\
  exists x1 x2, res_x (linprog task1_lp) = [x1; x2] /\
    2 * x1 + 3 * x2 == 240 /\ x1 + 2 * x2 <= 150 /\ 0 <= x1 /\ 0 <= x2 /\
    res_fun (linprog task1_lp) == - (8000) * x1 + - (12000) * x2.
Proof.
  intros [Hc Ho Hf].
  specialize (Hc task1_has_optimum). split; [assumption|].
  specialize (Ho Hc). specialize (Hf Hc).
  apply optimal_task1_iff in Ho as (x1 & x2 & Hx & H).
  exists x1, x2. rewrite Hx in Hf. simpl in Hf.
  repeat split; try tauto. lra.
Qed.

Lemma result_30_60_meets_contract : linprog_spec task1_lp result_30_60.
Proof.
  split; intros _; [reflexivity | | reflexivity].
  apply optimal_task1_iff. exists 30, 60. repeat split; lra.
Qed.

Lemma result_120_0_meets_contract : linprog_spec task1_lp result_120_0.
Proof.
  split; intros _; [reflexivity | | reflexivity].
  apply optimal_task1_iff. exists 120, 0. repeat split; lra.
Qed.

(** C6.  The objective handed to the solver is the negated profit vector,
    and for every successful result the reported profit [- fun] is the
    profit [8000 * x1 + 12000 * x2] of the returned point, the value the
    chart annotates. *)
Theorem task1_profit_round_trip linprog x1 x2 :
  res_success (linprog task1_lp) = true ->
  res_x (linprog task1_lp) = [x1; x2] ->
  res_fun (linprog task1_lp) == dot (lp_c task1_lp) (res_x (linprog task1_lp)) ->
  lp_c task1_lp = map Qopp [8000; 12000] /\
  In (CallLinprog task1_lp) (output (solve_task1 linprog)) /\
  In (Solved1 x1 x2 (- res_fun (linprog task1_lp)))
     (output (solve_task1 linprog)) /\
  - res_fun (linprog task1_lp) == 8000 * x1 + 12000 * x2 /\
  - res_fun (linprog task1_lp) == dot [8000; 12000] [x1; x2].
Proof.
  intros Hs Hx Hf. rewrite (solve_task1_success linprog x1 x2 Hs Hx).
  rewrite Hx in Hf. simpl in Hf.
  split; [reflexivity|]. split; [simpl; tauto|]. split; [simpl; tauto|].
  simpl. split; lra.
Qed.

Lemma task1_profit_round_trip_witness :
  - res_fun (scripted_linprog result_120_0 result_plan task1_lp)
  == 8000 * 120 + 12000 * 0.
Proof.
  apply (task1_profit_round_trip
           (scripted_linprog result_120_0 result_plan) 120 0);
    reflexivity.
Defined.

(** ** Task 2: the transportation plan *)

Lemma task2_contract linprog :
  linprog_spec task2_lp (linprog task2_lp) ->
  res_success (linprog task2_lp) = true /\
  exists x11 x12 x13 x21 x22 x23,
    res_x (linprog task2_lp) = [x11; x12; x13; x21; x22; x23] /\
    x13 == 0 /\
    x11 + x12 + x13 == 150 /\ x21 + x22 + x23 == 250 /\
    x11 + x21 == 120 /\ x12 + x22 == 180 /\ x13 + x23 == 100 /\
    0 <= x11 /\ 0 <= x12 /\ 0 <= x13 /\ 0 <= x21 /\ 0 <= x22 /\ 0 <= x23 /\
    res_fun (linprog task2_lp)
    == 8 * x11 + 6 * x12 + 10 * x13 + 9 * x21 + 7 * x22 + 5 * x23.
Proof.
  intros [Hc Ho Hf].
  specialize (Hc task2_has_optimum). split; [assumption|].
  specialize (Ho Hc). specialize (Hf Hc).
  apply optimal_task2_iff in Ho
    as (x11 & x12 & x13 & x21 & x22 & x23 & Hx & H).
  exists x11, x12, x13, x21, x22, x23. rewrite Hx in Hf. simpl in Hf.
  repeat split; try tauto. lra.
Qed.

Lemma result_plan_meets_contract : linprog_spec task2_lp result_plan.
Proof.
  split; intros _; [reflexivity | | reflexivity].
  apply optimal_task2_iff. exists 120, 30, 0, 0, 150, 100.
  repeat split; lra.
Qed.

(** C2.  With a solver that meets its contract, Task 2 returns a shipment
    vector that satisfies the two supply equations and the three demand
    equations, with every quantity non-negative; these are the sums the
    report prints in its check block. *)
Theorem task2_plan_satisfies_constraints linprog :
  linprog_spec task2_lp (linprog task2_lp) ->
  exists x11 x12 x13 x21 x22 x23,
    outcome (solve_task2 linprog) = inr (Some (linprog task2_lp)) /\
    res_x (linprog task2_lp) = [x11; x12; x13; x21; x22; x23] /\
    x11 + x12 + x13 == 150 /\ x21 + x22 + x23 == 250 /\
    x11 + x21 == 120 /\ x12 + x22 == 180 /\ x13 + x23 == 100 /\
    0 <= x11 /\ 0 <= x12 /\ 0 <= x13 /\ 0 <= x21 /\ 0 <= x22 /\ 0 <= x23 /\
    In (CheckRow (x11 + x12 + x13) 150) (output (solve_task2 linprog)) /\
    In (CheckRow (x21 + x22 + x23) 250) (output (solve_task2 linprog)) /\
    In (CheckRow (x11 + x21) 120) (output (solve_task2 linprog)) /\
    In (CheckRow (x12 + x22) 180) (output (solve_task2 linprog)) /\
    In (CheckRow (x13 + x23) 100) (output (solve_task2 linprog)).
Proof.
  intros Hspec.
  destruct (task2_contract linprog Hspec)
    as (Hs & x11 & x12 & x13 & x21 & x22 & x23 & Hx & H).
  exists x11, x12, x13, x21, x22, x23.
  rewrite (solve_task2_success linprog _ _ _ _ _ _ Hs Hx).
  unfold output, outcome, fst, snd.
  split; [reflexivity|]. split; [assumption|].
  repeat (split; [tauto|]).
  repeat split; apply in_or_app; left; simpl; tauto.
Qed.

Lemma task2_plan_satisfies_constraints_witness :
  linprog_spec task2_lp (scripted_linprog result_30_60 result_plan task2_lp) /\
  outcome (solve_task2 (scripted_linprog result_30_60 result_plan))
  = inr (Some result_plan).
Proof.
  split.
  - exact result_plan_meets_contract.
  - destruct (task2_plan_satisfies_constraints
                (scripted_linprog result_30_60 result_plan)
                result_plan_meets_contract)
      as (x11 & x12 & x13 & x21 & x22 & x23 & Ho & _).
    exact Ho.
Defined.

(** C4.  With a solver that meets its contract, the minimum cost that
    Task 2 reports is the solver's objective value, it equals the cost
    recomputed from the cost matrix and the returned quantities, and it is
    2690 whichever optimal plan the solver returns. *)
Theorem task2_min_cost linprog :
  linprog_spec task2_lp (linprog task2_lp) ->
  exists x11 x12 x13 x21 x22 x23,
    res_x (linprog task2_lp) = [x11; x12; x13; x21; x22; x23] /\
    In (MinCost (res_fun (linprog task2_lp))) (output (solve_task2 linprog)) /\
    res_fun (linprog task2_lp)
    == 8 * x11 + 6 * x12 + 10 * x13 + 9 * x21 + 7 * x22 + 5 * x23 /\
    res_fun (linprog task2_lp) == 2690.
Proof.
  intros Hspec.
  destruct (task2_contract linprog Hspec)
    as (Hs & x11 & x12 & x13 & x21 & x22 & x23 & Hx & H).
  exists x11, x12, x13, x21, x22, x23.
  rewrite (solve_task2_success linprog _ _ _ _ _ _ Hs Hx).
  unfold output, fst.
  split; [assumption|].
  split; [apply in_or_app; left; simpl; tauto|].
  split; lra.
Qed.

Lemma task2_min_cost_witness :
  linprog_spec task2_lp (scripted_linprog result_30_60 result_plan task2_lp) /\
  res_fun (scripted_linprog result_30_60 result_plan task2_lp) == 2690.
Proof.
  split.
  - exact result_plan_meets_contract.
  - destruct (task2_min_cost (scripted_linprog result_30_60 result_plan)
                result_plan_meets_contract)
      as (x11 & x12 & x13 & x21 & x22 & x23 & _ & _ & _ & Hv).
    exact Hv.
Defined.

(** ** The 1e-6 tolerance *)

Lemma in_used_lines (e : event) (routes : list route) :
  In e (used_lines routes) <->
  exists w b qty cost,
    In (w, b, qty, cost) routes /\ tol < qty /\
    e = UsedRoute w b qty cost (qty * inject_Z cost).
Proof.
  unfold used_lines. rewrite in_flat_map. split.
  - intros ([[[w b] qty] cost] & Hin & He). exists w, b, qty, cost.
    simpl in He. destruct (Qltb tol qty) eqn:Hq; simpl in He; [|tauto].
    apply Qltb_iff in Hq. destruct He as [<- | []]. tauto.
  - intros (w & b & qty & cost & Hin & Hq & ->).
    exists (w, b, qty, cost). split; [assumption|].
    apply Qltb_iff in Hq. simpl. rewrite Hq. simpl. tauto.
Qed.

Lemma in_unused_lines (e : event) (routes : list route) :
  In e (unused_lines routes) <->
  exists w b qty cost,
    In (w, b, qty, cost) routes /\ qty <= tol /\ e = UnusedRoute w b qty cost.
Proof.
  unfold unused_lines. rewrite in_flat_map. split.
  - intros ([[[w b] qty] cost] & Hin & He). exists w, b, qty, cost.
    simpl in He. destruct (Qle_bool qty tol) eqn:Hq; simpl in He; [|tauto].
    apply Qle_bool_iff in Hq. destruct He as [<- | []]. tauto.
  - intros (w & b & qty & cost & Hin & Hq & ->).
    exists (w, b, qty, cost). split; [assumption|].
    apply Qle_bool_iff in Hq. simpl. rewrite Hq. simpl. tauto.
Qed.

Lemma in_draw_flow (a : arrow) (routes : list route) :
  In a (flat_map draw_flow routes) <->
  exists w b qty cost,
    In (w, b, qty, cost) routes /\ tol < qty /\
    a = mkArrow w b qty cost (Qmax 2 (qty / 25))
                (if (cost <=? 7)%Z then Blue else Red).
Proof.
  rewrite in_flat_map. split.
  - intros ([[[w b] qty] cost] & Hin & He). exists w, b, qty, cost.
    simpl in He. destruct (Qltb tol qty) eqn:Hq; simpl in He; [|tauto].
    apply Qltb_iff in Hq. destruct He as [<- | []]. tauto.
  - intros (w & b & qty & cost & Hin & Hq & ->).
    exists (w, b, qty, cost). split; [assumption|].
    apply Qltb_iff in Hq. simpl. rewrite Hq. simpl. tauto.
Qed.

(** Where the route lines of a successful Task 2 report come from. *)
Lemma used_route_in_output linprog x11 x12 x13 x21 x22 x23 w b qty cost amount :
  res_success (linprog task2_lp) = true ->
  res_x (linprog task2_lp) = [x11; x12; x13; x21; x22; x23] ->
  In (UsedRoute w b qty cost amount) (output (solve_task2 linprog)) <->
  In (UsedRoute w b qty cost amount)
     (used_lines (routes_of (x11, x12, x13, x21, x22, x23))).
Proof.
  intros Hs Hx.
  rewrite (solve_task2_success linprog _ _ _ _ _ _ Hs Hx).
  unfold output, fst. rewrite !in_app_iff. split; [|tauto].
  intros [H | [H | [H | [H | H]]]]; try assumption.
  - simpl in H. repeat (destruct H as [H | H]; [discriminate|]). tauto.
  - simpl in H. destruct H as [H | []]. discriminate.
  - apply in_unused_lines in H as (? & ? & ? & ? & _ & _ & H). discriminate.
  - simpl in H. destruct H as [H | []]. discriminate.
Qed.

Lemma unused_route_in_output linprog x11 x12 x13 x21 x22 x23 w b qty cost :
  res_success (linprog task2_lp) = true ->
  res_x (linprog task2_lp) = [x11; x12; x13; x21; x22; x23] ->
  In (UnusedRoute w b qty cost) (output (solve_task2 linprog)) <->
  In (UnusedRoute w b qty cost)
     (unused_lines (routes_of (x11, x12, x13, x21, x22, x23))).
Proof.
  intros Hs Hx.
  rewrite (solve_task2_success linprog _ _ _ _ _ _ Hs Hx).
  unfold output, fst. rewrite !in_app_iff. split; [|tauto].
  intros [H | [H | [H | [H | H]]]]; try assumption.
  - simpl in H. repeat (destruct H as [H | H]; [discriminate|]). tauto.
  - apply in_used_lines in H as (? & ? & ? & ? & _ & _ & H). discriminate.
  - simpl in H. destruct H as [H | []]. discriminate.
  - simpl in H. destruct H as [H | []]. discriminate.
Qed.

(** C7.  Task 2 lists a route as used exactly when its quantity exceeds
    1e-6 and as unused exactly when it does not, so every quantity below
    1e-6 is unused and every quantity above it is used, in the report and in
    the chart's arrows alike.  Task 1 reports a constraint as fully used,
    and lists its resource as deficient, exactly when the usage differs from
    the bound by less than 1e-6. *)
Theorem tolerance_classification :
  (forall linprog x11 x12 x13 x21 x22 x23 w b qty cost,
      res_success (linprog task2_lp) = true ->
      res_x (linprog task2_lp) = [x11; x12; x13; x21; x22; x23] ->
      In (w, b, qty, cost) (routes_of (x11, x12, x13, x21, x22, x23)) ->
      let out := output (solve_task2 linprog) in
      (In (UsedRoute w b qty cost (qty * inject_Z cost)) out <-> tol < qty) /\
      (In (UnusedRoute w b qty cost) out <-> qty <= tol) /\
      (qty < tol ->
       In (UnusedRoute w b qty cost) out /\
       forall amount, ~ In (UsedRoute w b qty cost amount) out) /\
      (tol < qty ->
       In (UsedRoute w b qty cost (qty * inject_Z cost)) out /\
       ~ In (UnusedRoute w b qty cost) out) /\
      ((exists width color,
           In (mkArrow w b qty cost width color)
              (flat_map draw_flow (routes_of (x11, x12, x13, x21, x22, x23))))
       <-> tol < qty))
  /\
  (forall linprog x1 x2,
      res_success (linprog task1_lp) = true ->
      res_x (linprog task1_lp) = [x1; x2] ->
      let out := output (solve_task1 linprog) in
      let cpu_used := 2 * x1 + 3 * x2 in
      let battery_used := x1 + 2 * x2 in
      exists full_cpu full_battery deficient,
        In (Usage CpuTime cpu_used 240 full_cpu) out /\
        In (Usage Battery battery_used 150 full_battery) out /\
        In (Deficient deficient) out /\
        (full_cpu = true <-> Qabs (cpu_used - 240) < tol) /\
        (full_battery = true <-> Qabs (battery_used - 150) < tol) /\
        (In CpuTime deficient <-> Qabs (cpu_used - 240) < tol) /\
        (In Battery deficient <-> Qabs (battery_used - 150) < tol)).
Proof.
  split.
  - intros linprog x11 x12 x13 x21 x22 x23 w b qty cost Hs Hx Hin out.
    assert (Hused : forall amount,
               In (UsedRoute w b qty cost amount) out -> tol < qty).
    { intros amount H. apply (used_route_in_output linprog _ _ _ _ _ _
                                 _ _ _ _ _ Hs Hx) in H.
      apply in_used_lines in H as (? & ? & ? & ? & _ & Hq & E).
      injection E as <- <- <- <- _. exact Hq. }
    assert (Hused' : tol < qty ->
               In (UsedRoute w b qty cost (qty * inject_Z cost)) out).
    { intros Hq. apply (used_route_in_output linprog _ _ _ _ _ _
                           _ _ _ _ _ Hs Hx).
      apply in_used_lines. exists w, b, qty, cost. tauto. }
    assert (Hunused : In (UnusedRoute w b qty cost) out -> qty <= tol).
    { intros H. apply (unused_route_in_output linprog _ _ _ _ _ _
                          _ _ _ _ Hs Hx) in H.
      apply in_unused_lines in H as (? & ? & ? & ? & _ & Hq & E).
      injection E as <- <- <- <-. exact Hq. }
    assert (Hunused' : qty <= tol -> In (UnusedRoute w b qty cost) out).
    { intros Hq. apply (unused_route_in_output linprog _ _ _ _ _ _
                           _ _ _ _ Hs Hx).
      apply in_unused_lines. exists w, b, qty, cost. tauto. }
    split; [split; [apply Hused | apply Hused']|].
    split; [split; [apply Hunused | apply Hunused']|].
    split; [|split].
    + intros Hq. split; [apply Hunused'; lra|].
      intros amount H. apply Hused in H. lra.
    + intros Hq. split; [apply Hused'; assumption|].
      intros H. apply Hunused in H. lra.
    + split.
      * intros (width & color & H).
        apply in_draw_flow in H as (? & ? & ? & ? & _ & Hq & E).
        injection E as <- <- <- <- _ _. exact Hq.
      * intros Hq. do 2 eexists. apply in_draw_flow.
        exists w, b, qty, cost. split; [assumption|]. split; [assumption|].
        reflexivity.
  - intros linprog x1 x2 Hs Hx out cpu_used battery_used.
    exists (binding cpu_used 240), (binding battery_used 150),
      ((if binding cpu_used 240 then [CpuTime] else [])
       ++ (if binding battery_used 150 then [Battery] else [])).
    unfold out. rewrite (solve_task1_success linprog x1 x2 Hs Hx).
    unfold output, fst. fold cpu_used battery_used.
    rewrite <- !binding_iff.
    split; [simpl; tauto|]. split; [simpl; tauto|]. split; [simpl; tauto|].
    split; [tauto|]. split; [tauto|].
    destruct (binding cpu_used 240), (binding battery_used 150); simpl;
      split; split; intro H; try reflexivity; try tauto;
      try discriminate;
      repeat (destruct H as [H | H]; try discriminate); try contradiction.
Qed.

Lemma tolerance_classification_witness :
  In (UnusedRoute Sklad2 Alpha 0 9)
     (output (solve_task2 (scripted_linprog result_30_60 result_plan))) /\
  In (UsedRoute Sklad2 Gamma 100 5 (100 * inject_Z 5))
     (output (solve_task2 (scripted_linprog result_30_60 result_plan))) /\
  exists full_cpu full_battery deficient,
    In (Deficient deficient)
       (output (solve_task1 (scripted_linprog result_120_0 result_plan))) /\
    In (Usage CpuTime (2 * 120 + 3 * 0) 240 full_cpu)
       (output (solve_task1 (scripted_linprog result_120_0 result_plan))) /\
    In (Usage Battery (120 + 2 * 0) 150 full_battery)
       (output (solve_task1 (scripted_linprog result_120_0 result_plan))).
Proof.
  split; [|split].
  - apply (proj1 tolerance_classification
             (scripted_linprog result_30_60 result_plan)
             120 30 0 0 150 100 Sklad2 Alpha 0 9%Z);
      [reflexivity | reflexivity | simpl; tauto | reflexivity].
  - apply (proj1 tolerance_classification
             (scripted_linprog result_30_60 result_plan)
             120 30 0 0 150 100 Sklad2 Gamma 100 5%Z);
      [reflexivity | reflexivity | simpl; tauto | reflexivity].
  - destruct (proj2 tolerance_classification
                (scripted_linprog result_120_0 result_plan) 120 0
                eq_refl eq_refl)
      as (fc & fb & d & H1 & H2 & H3 & _).
    exists fc, fb, d. tauto.
Defined.

(** ** Solver failure and the returned value *)

Lemma main_after_task1_failure linprog :
  res_success (linprog task1_lp) = false ->
  main linprog =
  ([Title; Intro1; CallLinprog task1_lp;
    ErrorLine (res_message (linprog task1_lp)); Separator]
   ++ output (solve_task2 linprog)
   ++ match outcome (solve_task2 linprog) with
      | inl _ => []
      | inr _ => [Footer]
      end,
   match outcome (solve_task2 linprog) with
   | inl e => inl e
   | inr result2 => inr (None, result2)
   end).
Proof.
  intros Hs. unfold main.
  rewrite bind_print, (solve_task1_failure linprog Hs), bind_value.
  cbv beta. rewrite bind_print.
  destruct (solve_task2 linprog) as [out [e | result2]].
  - unfold prepend, bind, output, outcome. simpl.
    rewrite app_nil_r. reflexivity.
  - reflexivity.
Qed.

(** C8.  When the solver reports failure, the task prints the solver's
    message after the problem statement and returns [None]: it raises
    nothing, prints no solution line and saves no chart, and its run depends
    on the result only through the message.  After a failure of Task 1 the
    main program still runs Task 2 in full. *)
Theorem solver_failure_is_terminal :
  (forall linprog,
      res_success (linprog task1_lp) = false ->
      solve_task1 linprog =
      ([Intro1; CallLinprog task1_lp;
        ErrorLine (res_message (linprog task1_lp))],
       inr None))
  /\ (forall linprog,
      res_success (linprog task2_lp) = false ->
      solve_task2 linprog =
      ([Intro2; Balance supply demand; Model2; CallLinprog task2_lp;
        ErrorLine (res_message (linprog task2_lp))],
       inr None))
  /\ (forall linprog,
      res_success (linprog task1_lp) = false ->
      output (main linprog) =
      ([Title; Intro1; CallLinprog task1_lp;
        ErrorLine (res_message (linprog task1_lp)); Separator]
       ++ output (solve_task2 linprog)
       ++ match outcome (solve_task2 linprog) with
          | inl _ => []
          | inr _ => [Footer]
          end)%list
      /\ outcome (main linprog) =
         match outcome (solve_task2 linprog) with
         | inl e => inl e
         | inr result2 => inr (None, result2)
         end)
  /\ (forall linprog,
      res_success (linprog task1_lp) = false ->
      res_success (linprog task2_lp) = false ->
      main linprog =
      ([Title; Intro1; CallLinprog task1_lp;
        ErrorLine (res_message (linprog task1_lp)); Separator;
        Intro2; Balance supply demand; Model2; CallLinprog task2_lp;
        ErrorLine (res_message (linprog task2_lp)); Footer],
       inr (None, None))).
Proof.
  split; [exact solve_task1_failure|].
  split; [exact solve_task2_failure|].
  split.
  - intros linprog Hs. rewrite (main_after_task1_failure linprog Hs).
    split; reflexivity.
  - intros linprog Hs1 Hs2. rewrite (main_after_task1_failure linprog Hs1).
    rewrite (solve_task2_failure linprog Hs2). reflexivity.
Qed.

Lemma solver_failure_is_terminal_witness :
  solve_task1 (scripted_linprog result_infeasible result_plan) =
  ([Intro1; CallLinprog task1_lp; ErrorLine "The problem is infeasible."],
   inr None)
  /\ solve_task2 (scripted_linprog result_30_60 result_infeasible) =
     ([Intro2; Balance supply demand; Model2; CallLinprog task2_lp;
       ErrorLine "The problem is infeasible."],
      inr None)
  /\ outcome (main (scripted_linprog result_infeasible result_plan)) =
     inr (None, Some result_plan)
  /\ outcome (main (scripted_linprog result_infeasible result_infeasible)) =
     inr (None, None).
Proof.
  split; [|split; [|split]].
  - apply (proj1 solver_failure_is_terminal
             (scripted_linprog result_infeasible result_plan)).
    reflexivity.
  - apply (proj1 (proj2 solver_failure_is_terminal)
             (scripted_linprog result_30_60 result_infeasible)).
    reflexivity.
  - rewrite (proj2 (proj1 (proj2 (proj2 solver_failure_is_terminal))
                      (scripted_linprog result_infeasible result_plan)
                      eq_refl)).
    reflexivity.
  - rewrite (proj2 (proj2 (proj2 solver_failure_is_terminal))
               (scripted_linprog result_infeasible result_infeasible)
               eq_refl eq_refl).
    reflexivity.
Defined.

Lemma length_2 {A} (l : list A) :
  length l = 2%nat -> exists a b, l = [a; b].
Proof.
  destruct l as [|a [|b [|c l]]]; try discriminate. intros _. eauto.
Qed.

Lemma length_6 {A} (l : list A) :
  length l = 6%nat -> exists a b c d e f, l = [a; b; c; d; e; f].
Proof.
  destruct l as [|a [|b [|c [|d [|e [|f [|g l]]]]]]]; try discriminate.
  intros _. do 6 eexists. reflexivity.
Qed.

(** C10.  For a solver result of the shape scipy gives (on success the
    vector has one entry per variable), each of [solve_task1] and
    [solve_task2] returns without raising, returns [None] exactly when the
    success flag is false, and otherwise returns the solver's result itself,
    vector and objective value included. *)
Theorem solve_returns_result_or_none linprog :
  well_shaped task1_lp (linprog task1_lp) ->
  well_shaped task2_lp (linprog task2_lp) ->
  (outcome (solve_task1 linprog) =
   inr (if res_success (linprog task1_lp) then Some (linprog task1_lp) else None)
   /\ (outcome (solve_task1 linprog) = inr None <->
       res_success (linprog task1_lp) = false))
  /\
  (outcome (solve_task2 linprog) =
   inr (if res_success (linprog task2_lp) then Some (linprog task2_lp) else None)
   /\ (outcome (solve_task2 linprog) = inr None <->
       res_success (linprog task2_lp) = false)).
Proof.
  intros W1 W2. split.
  - destruct (res_success (linprog task1_lp)) eqn:Hs.
    + destruct (length_2 _ (W1 Hs)) as (x1 & x2 & Hx).
      rewrite (solve_task1_success linprog x1 x2 Hs Hx).
      unfold outcome, snd. split; [reflexivity|].
      split; discriminate.
    + rewrite (solve_task1_failure linprog Hs).
      unfold outcome, snd. split; [reflexivity|]. tauto.
  - destruct (res_success (linprog task2_lp)) eqn:Hs.
    + destruct (length_6 _ (W2 Hs)) as (x11 & x12 & x13 & x21 & x22 & x23 & Hx).
      rewrite (solve_task2_success linprog _ _ _ _ _ _ Hs Hx).
      unfold outcome, snd. split; [reflexivity|].
      split; discriminate.
    + rewrite (solve_task2_failure linprog Hs).
      unfold outcome, snd. split; [reflexivity|]. tauto.
Qed.

Lemma solve_returns_result_or_none_witness :
  outcome (solve_task1 (scripted_linprog result_30_60 result_infeasible)) =
  inr (Some result_30_60)
  /\ outcome (solve_task2 (scripted_linprog result_30_60 result_infeasible)) =
     inr None.
Proof.
  assert (W1 : well_shaped task1_lp
                 (scripted_linprog result_30_60 result_infeasible task1_lp))
    by (intros _; reflexivity).
  assert (W2 : well_shaped task2_lp
                 (scripted_linprog result_30_60 result_infeasible task2_lp))
    by (intros H; discriminate H).
  destruct (solve_returns_result_or_none
              (scripted_linprog result_30_60 result_infeasible) W1 W2)
    as [[H1 _] [H2 _]].
  split; [exact H1 | exact H2].
Defined.

(** * Further properties of the charts and of the runs *)

(** Linear arithmetic after the constant divisions are turned into
    multiplications. *)
Ltac qlra := unfold Qdiv in *; cbn [Qinv Qnum Qden] in *; lra.

(** ** The Task 1 chart *)

(** X1.  The convex hull of the four polygon vertices is exactly the
    feasible set of Task 1: the shaded polygon covers every feasible point
    and nothing else. *)
Theorem polygon_is_feasible_region (p : Q * Q) :
  in_hull vertices p <-> feasible task1_lp [fst p; snd p].
Proof.
  destruct p as [p1 p2]. rewrite feasible_task1_iff.
  unfold in_hull, pt_eq, combination, vertices. simpl. split.
  - intros (w & Hlen & Hpos & Hsum & E1 & E2).
    destruct w as [|a [|b [|c [|d [|e w]]]]]; try discriminate Hlen.
    inversion_clear Hpos as [|? ? Ha Hpos1].
    inversion_clear Hpos1 as [|? ? Hb Hpos2].
    inversion_clear Hpos2 as [|? ? Hc Hpos3].
    inversion_clear Hpos3 as [|? ? Hd _].
    simpl in Hsum, E1, E2. unfold inject_Z in E1, E2.
    exists p1, p2. repeat split; lra.
  - intros (x1 & x2 & E & H1 & H2 & H3 & H4). injection E as <- <-.
    destruct (Qlt_le_dec p2 (2 * p1)) as [Hlow | Hhigh].
    + exists [1 - p2 * (1 # 60) - (2 * p1 - p2) * (1 # 240); 0;
              p2 * (1 # 60); (2 * p1 - p2) * (1 # 240)].
      split; [reflexivity|]. split.
      * repeat constructor; lra.
      * simpl. unfold inject_Z. repeat split; lra.
    + exists [1 - (p2 - 2 * p1) * (1 # 75) - p1 * (1 # 30);
              (p2 - 2 * p1) * (1 # 75); p1 * (1 # 30); 0].
      split; [reflexivity|]. split.
      * repeat constructor; lra.
      * simpl. unfold inject_Z. repeat split; lra.
Qed.

Lemma x2_cpu_cases (x1 : Q) :
  (x1 <= 120 /\ x2_cpu x1 == (240 - 2 * x1) * (1 # 3)) \/
  (120 <= x1 /\ x2_cpu x1 == 0).
Proof.
  unfold x2_cpu.
  destruct (Q.max_spec ((240 - 2 * x1) / 3) 0) as [[H1 H2] | [H1 H2]];
    [right | left]; split; qlra.
Qed.

Lemma x2_battery_cases (x1 : Q) :
  (x1 <= 150 /\ x2_battery x1 == (150 - x1) * (1 # 2)) \/
  (150 <= x1 /\ x2_battery x1 == 0).
Proof.
  unfold x2_battery.
  destruct (Q.max_spec ((150 - x1) / 2) 0) as [[H1 H2] | [H1 H2]];
    [right | left]; split; qlra.
Qed.

(** X2.  The two plotted constraint lines never go below the axis; every
    sample of the CPU line left of 120 lies on [2 * x1 + 3 * x2 = 240] and
    every sample of the accumulator line left of 150 lies on
    [x1 + 2 * x2 = 150], the rest being clipped to 0; and for
    [0 <= x1 <= 120] a point is feasible exactly when it lies between the
    axis and both lines. *)
Theorem constraint_lines_bound_region :
  length cpu_line = 400%nat /\ length battery_line = 400%nat /\
  (forall x1 x2, In (x1, x2) cpu_line ->
     0 <= x2 /\ (x1 <= 120 -> 2 * x1 + 3 * x2 == 240) /\
     (120 <= x1 -> x2 == 0)) /\
  (forall x1 x2, In (x1, x2) battery_line ->
     0 <= x2 /\ (x1 <= 150 -> x1 + 2 * x2 == 150) /\
     (150 <= x1 -> x2 == 0)) /\
  (forall x1 x2, 0 <= x1 -> x1 <= 120 ->
     (feasible task1_lp [x1; x2] <->
      0 <= x2 /\ x2 <= x2_cpu x1 /\ x2 <= x2_battery x1)).
Proof.
  split; [|split; [|split; [|split]]].
  - unfold cpu_line, x1_grid, linspace. rewrite !length_map. apply length_seq.
  - unfold battery_line, x1_grid, linspace. rewrite !length_map.
    apply length_seq.
  - intros x1 x2 Hin. apply in_map_iff in Hin as (x & E & _).
    injection E as <- <-.
    destruct (x2_cpu_cases x) as [[H1 H2] | [H1 H2]]; repeat split; lra.
  - intros x1 x2 Hin. apply in_map_iff in Hin as (x & E & _).
    injection E as <- <-.
    destruct (x2_battery_cases x) as [[H1 H2] | [H1 H2]]; repeat split; lra.
  - intros x1 x2 Hlo Hhi. rewrite feasible_task1_iff.
    destruct (x2_cpu_cases x1) as [[H1 H2] | [H1 H2]];
      destruct (x2_battery_cases x1) as [[G1 G2] | [G1 G2]]; split.
    all: try (intros (y1 & y2 & E & F1 & F2 & F3 & F4);
              injection E as <- <-; repeat split; lra).
    all: intros (F1 & F2 & F3); exists x1, x2; repeat split; lra.
Qed.

Lemma constraint_lines_bound_region_witness :
  feasible task1_lp [30; 60] /\ 60 <= x2_cpu 30.
Proof.
  assert (H : feasible task1_lp [30; 60]) by reflexivity.
  split; [exact H|].
  apply (proj1 (proj2 (proj2 (proj2 (proj2 constraint_lines_bound_region)))
                  30 60 ltac:(lra) ltac:(lra))) in H.
  tauto.
Defined.

(** X3.  For a point with at least two entries the chart is saved without
    an exception, entries after the second are ignored, and the five
    isoprofit levels are 20, 40, 60, 80 and 100 percent of the point's
    profit.  The isoprofit lines all fall by 2 for every 3 units of [x1],
    and the line of the highest level passes through the point itself. *)
Theorem isoprofit_levels (p0 p1 : Q) (rest : vec) :
  let profit := 8000 * p0 + 12000 * p1 in
  exists levels,
    visualize_task1 (p0 :: p1 :: rest) =
    ([SaveFig "task1.png" (Chart1 vertices levels (p0, p1) profit)], inr tt) /\
    Forall2 Qeq levels
      [profit * (1 # 5); profit * (2 # 5); profit * (3 # 5);
       profit * (4 # 5); profit] /\
    x2_profit profit p0 == p1 /\
    (forall level x1, x2_profit level (x1 + 3) == x2_profit level x1 - 2).
Proof.
  intros profit. eexists. split; [reflexivity|]. split; [|split].
  - unfold linspace. simpl. unfold inject_Z. fold profit.
    repeat constructor; qlra.
  - unfold x2_profit, profit. qlra.
  - intros level x1. unfold x2_profit. qlra.
Qed.

(** X4.  With a solver that meets its contract, the profit annotated on the
    Task 1 chart is 960000 and the highest isoprofit line runs along the
    plotted CPU line for all [0 <= x1 <= 120]: the whole edge of optima lies
    on that line, not only the marked point. *)
Theorem top_isoprofit_is_cpu_line linprog :
  linprog_spec task1_lp (linprog task1_lp) ->
  exists levels x1 x2 profit,
    In (SaveFig "task1.png" (Chart1 vertices levels (x1, x2) profit))
       (output (solve_task1 linprog)) /\
    res_x (linprog task1_lp) = [x1; x2] /\
    profit == 960000 /\
    (forall t, 0 <= t -> t <= 120 -> x2_profit profit t == x2_cpu t) /\
    (forall t, 0 <= t -> t <= 120 ->
       optimal task1_lp [t; x2_cpu t] <-> 30 <= t).
Proof.
  intros Hspec.
  destruct (task1_contract linprog Hspec)
    as (Hs & x1 & x2 & Hx & H1 & H2 & H3 & H4 & Hf).
  exists (linspace ((8000 * x1 + 12000 * x2) * (1 # 5))
                   (8000 * x1 + 12000 * x2) 5),
    x1, x2, (8000 * x1 + 12000 * x2).
  rewrite (solve_task1_success linprog x1 x2 Hs Hx).
  unfold output, fst.
  split; [simpl; tauto|]. split; [assumption|]. split; [lra|]. split.
  - intros t Ht0 Ht1. unfold x2_profit.
    destruct (x2_cpu_cases t) as [[G1 G2] | [G1 G2]]; qlra.
  - intros t Ht0 Ht1. rewrite optimal_task1_iff.
    destruct (x2_cpu_cases t) as [[G1 G2] | [G1 G2]]; split.
    all: try (intros (y1 & y2 & E & F1 & F2 & F3 & F4);
              injection E as <- <-; lra).
    all: intros F; exists t, (x2_cpu t); repeat split; lra.
Qed.

Lemma top_isoprofit_is_cpu_line_witness :
  exists profit, profit == 960000 /\ x2_profit profit 60 == x2_cpu 60.
Proof.
  destruct (top_isoprofit_is_cpu_line
              (scripted_linprog result_120_0 result_plan)
              result_120_0_meets_contract)
    as (levels & x1 & x2 & profit & _ & _ & Hp & Hline & _).
  exists profit. split; [exact Hp|].
  apply Hline; lra.
Defined.

(** ** The chart functions at the edges of their input *)

(** X5.  [visualize_task1] raises [IndexError] and saves nothing when the
    point has fewer than two entries; with two or more it saves exactly the
    file task1.png, and what it draws does not depend on entries after the
    second. *)
Theorem visualize_task1_needs_two_entries :
  (forall v : vec, (length v < 2)%nat ->
     visualize_task1 v = ([], inl IndexError)) /\
  (forall (p0 p1 : Q) (rest : vec),
     outcome (visualize_task1 (p0 :: p1 :: rest)) = inr tt /\
     figures (output (visualize_task1 (p0 :: p1 :: rest))) = ["task1.png"%string] /\
     visualize_task1 (p0 :: p1 :: rest) = visualize_task1 [p0; p1]).
Proof.
  split.
  - intros [|a [|b v]] H; [reflexivity | reflexivity | simpl in H; lia].
  - intros p0 p1 rest. repeat split.
Qed.

Lemma visualize_task1_needs_two_entries_witness :
  visualize_task1 [30] = ([], inl IndexError).
Proof.
  apply (proj1 visualize_task1_needs_two_entries [30]). simpl. lia.
Defined.

(** X6.  [visualize_task2] raises [ValueError] and saves nothing unless the
    solution has exactly six entries; with six it saves exactly the file
    task2.png, whose total is the value it was given. *)
Theorem visualize_task2_needs_six_entries (total_cost : Q) :
  (forall v : vec, length v <> 6%nat ->
     visualize_task2 v total_cost = ([], inl ValueError)) /\
  (forall v : vec, length v = 6%nat ->
     exists arrows,
       visualize_task2 v total_cost =
       ([SaveFig "task2.png" (Chart2 arrows total_cost)], inr tt) /\
       (length arrows <= 6)%nat).
Proof.
  split.
  - intros v H.
    destruct v as [|a [|b [|c [|d [|e [|f [|g v]]]]]]];
      try reflexivity. contradiction H. reflexivity.
  - intros v H.
    destruct v as [|a [|b [|c [|d [|e [|f [|g v]]]]]]]; try discriminate H.
    eexists. split; [reflexivity|].
    simpl. unfold draw_flow.
    destruct (Qltb tol a), (Qltb tol b), (Qltb tol c), (Qltb tol d),
      (Qltb tol e), (Qltb tol f); simpl; lia.
Qed.

Lemma visualize_task2_needs_six_entries_witness :
  visualize_task2 [30; 60] 2690 = ([], inl ValueError) /\
  exists arrows,
    visualize_task2 [120; 30; 0; 0; 150; 100] 2690 =
    ([SaveFig "task2.png" (Chart2 arrows 2690)], inr tt).
Proof.
  split.
  - apply (proj1 (visualize_task2_needs_six_entries 2690) [30; 60]).
    discriminate.
  - destruct (proj2 (visualize_task2_needs_six_entries 2690)
                [120; 30; 0; 0; 150; 100] eq_refl) as (arrows & H & _).
    exists arrows. exact H.
Defined.

(** ** Arrows and route lines *)

(** X7.  Every arrow of the Task 2 chart belongs to a route that carries
    more than 1e-6; its line width is [max(2, quantity / 25)], so it is
    never thinner than 2, is exactly 2 up to 50 tonnes and grows with the
    quantity from there; and it is blue exactly when the unit cost is at
    most 7 and red exactly when the cost is 8 or more. *)
Theorem arrow_style (routes : list route) (a : arrow) :
  In a (flat_map draw_flow routes) ->
  In (arrow_route a) routes /\
  tol < arrow_quantity a /\
  2 <= arrow_width a /\
  (arrow_quantity a <= 50 -> arrow_width a == 2) /\
  (50 <= arrow_quantity a -> arrow_width a == arrow_quantity a / 25) /\
  (arrow_colour a = Blue <-> (arrow_cost a <= 7)%Z) /\
  (arrow_colour a = Red <-> (8 <= arrow_cost a)%Z) /\
  (forall a', In a' (flat_map draw_flow routes) ->
     arrow_quantity a <= arrow_quantity a' ->
     arrow_width a <= arrow_width a').
Proof.
  intros Hin.
  apply in_draw_flow in Hin as (w & b & qty & cost & Hin & Hq & ->).
  unfold arrow_route. simpl.
  split; [assumption|]. split; [assumption|].
  assert (Hw : forall q, 2 <= Qmax 2 (q / 25) /\
                         (q <= 50 -> Qmax 2 (q / 25) == 2) /\
                         (50 <= q -> Qmax 2 (q / 25) == q / 25)).
  { intros q. destruct (Q.max_spec 2 (q / 25)) as [[H1 H2] | [H1 H2]];
      repeat split; intros; qlra. }
  split; [apply Hw|]. split; [apply Hw|]. split; [apply Hw|].
  split; [|split].
  - destruct (cost <=? 7)%Z eqn:Hc.
    + apply Z.leb_le in Hc. tauto.
    + apply Z.leb_gt in Hc. split; [discriminate | lia].
  - destruct (cost <=? 7)%Z eqn:Hc.
    + apply Z.leb_le in Hc. split; [discriminate | lia].
    + apply Z.leb_gt in Hc. split; [lia | reflexivity].
  - intros a' Hin'.
    apply in_draw_flow in Hin' as (w' & b' & qty' & cost' & _ & _ & ->).
    simpl. intros Hle.
    destruct (Hw qty) as (_ & L1 & L2), (Hw qty') as (K0 & K1 & K2).
    destruct (Qlt_le_dec qty 50) as [Hc | Hc];
      destruct (Qlt_le_dec qty' 50) as [Hc' | Hc'].
    + rewrite L1 by lra. exact K0.
    + rewrite L1 by lra. exact K0.
    + lra.
    + rewrite L2, K2 by lra. qlra.
Qed.

Lemma arrow_style_witness :
  2 <= arrow_width (mkArrow Sklad2 Gamma 100 5 (Qmax 2 (100 / 25)) Blue).
Proof.
  assert (Hin : In (mkArrow Sklad2 Gamma 100 5 (Qmax 2 (100 / 25)) Blue)
                   (flat_map draw_flow (routes_of (120, 30, 0, 0, 150, 100))))
    by (simpl; tauto).
  destruct (arrow_style _ _ Hin) as (_ & _ & Hw & _).
  exact Hw.
Defined.

Lemma route_used_dichotomy (r : route) :
  output (print_used r) = (if route_used r then [used_line r] else []) /\
  output (print_unused r) = (if route_used r then [] else [unused_line r]) /\
  map arrow_route (draw_flow r) = (if route_used r then [r] else []).
Proof.
  destruct r as [[[w b] qty] cost].
  unfold print_used, print_unused, draw_flow, route_used, Qltb.
  destruct (Qle_bool qty tol); repeat split.
Qed.

(** X8.  The two loops over the routes split them without loss or overlap:
    the first prints, in order, the routes that carry more than 1e-6, the
    second prints, in order, all the others, so every route is printed
    exactly once; and the chart draws its arrows for exactly the routes of
    the first loop, in the same order. *)
Theorem route_loops_partition (routes : list route) :
  for_each routes print_used =
  (map used_line (filter route_used routes), inr tt) /\
  for_each routes print_unused =
  (map unused_line (filter (fun r => negb (route_used r)) routes), inr tt) /\
  map arrow_route (flat_map draw_flow routes) = filter route_used routes /\
  (length (filter route_used routes)
   + length (filter (fun r => negb (route_used r)) routes)
   = length routes)%nat.
Proof.
  rewrite (for_each_total _ _ print_used_outcome).
  rewrite (for_each_total _ _ print_unused_outcome).
  induction routes as [|r routes (IH1 & IH2 & IH3 & IH4)];
    [repeat split|].
  destruct (route_used_dichotomy r) as (E1 & E2 & E3).
  injection IH1 as IH1. injection IH2 as IH2.
  simpl. rewrite E1, E2, map_app, E3, IH1, IH2, IH3.
  destruct (route_used r); simpl; repeat split; lia.
Qed.

(** ** Exceptions and the sequencing of the two tasks *)

Lemma solve_task1_raises linprog :
  res_success (linprog task1_lp) = true ->
  length (res_x (linprog task1_lp)) <> 2%nat ->
  solve_task1 linprog = ([Intro1; CallLinprog task1_lp], inl ValueError).
Proof.
  intros Hs Hlen. unfold solve_task1. rewrite bind_print, bind_call.
  cbv beta. rewrite Hs.
  destruct (res_x (linprog task1_lp)) as [|a [|b [|c v]]];
    try reflexivity. contradiction Hlen. reflexivity.
Qed.

Lemma solve_task2_raises linprog :
  res_success (linprog task2_lp) = true ->
  length (res_x (linprog task2_lp)) <> 6%nat ->
  solve_task2 linprog =
  ([Intro2; Balance supply demand; Model2; CallLinprog task2_lp],
   inl ValueError).
Proof.
  intros Hs Hlen. unfold solve_task2, report_balance. rewrite !bind_print, bind_call.
  cbv beta. rewrite Hs.
  destruct (res_x (linprog task2_lp)) as [|a [|b [|c [|d [|e [|f [|g v]]]]]]];
    try reflexivity. contradiction Hlen. reflexivity.
Qed.

Lemma main_unfold linprog :
  main linprog =
  prepend [Title]
    (bind (solve_task1 linprog) (fun result1 =>
       prepend [Separator]
         (bind (solve_task2 linprog) (fun result2 =>
            prepend [Footer] (ret (result1, result2)))))).
Proof. reflexivity. Qed.

Lemma main_output linprog :
  output (main linprog) =
  Title :: output (solve_task1 linprog)
  ++ match outcome (solve_task1 linprog) with
     | inl _ => []
     | inr _ =>
         Separator :: output (solve_task2 linprog)
         ++ match outcome (solve_task2 linprog) with
            | inl _ => []
            | inr _ => [Footer]
            end
     end.
Proof.
  rewrite main_unfold.
  destruct (solve_task1 linprog) as [out1 [e1 | r1]];
    destruct (solve_task2 linprog) as [out2 [e2 | r2]];
    unfold prepend, bind, output, outcome; simpl;
    rewrite ?app_nil_r; reflexivity.
Qed.

(** X9.  The program handles no exception.  If the solver reports success
    with a vector of the wrong length, the task raises [ValueError] right
    after the solver call, before any solution line or chart; when this
    happens in Task 1 the main program stops there and Task 2 is never
    started. *)
Theorem malformed_result_raises linprog :
  (res_success (linprog task1_lp) = true ->
   length (res_x (linprog task1_lp)) <> 2%nat ->
   solve_task1 linprog = ([Intro1; CallLinprog task1_lp], inl ValueError) /\
   main linprog = ([Title; Intro1; CallLinprog task1_lp], inl ValueError)) /\
  (res_success (linprog task2_lp) = true ->
   length (res_x (linprog task2_lp)) <> 6%nat ->
   solve_task2 linprog =
   ([Intro2; Balance supply demand; Model2; CallLinprog task2_lp],
    inl ValueError) /\
   outcome (main linprog) =
   match outcome (solve_task1 linprog) with
   | inl e => inl e
   | inr _ => inl ValueError
   end).
Proof.
  split; intros Hs Hlen.
  - split; [apply solve_task1_raises; assumption|].
    rewrite main_unfold, (solve_task1_raises linprog Hs Hlen). reflexivity.
  - split; [apply solve_task2_raises; assumption|].
    rewrite main_unfold, (solve_task2_raises linprog Hs Hlen).
    destruct (solve_task1 linprog) as [out1 [e1 | r1]]; reflexivity.
Qed.

Lemma malformed_result_raises_witness :
  main (scripted_linprog result_short result_plan) =
  ([Title; Intro1; CallLinprog task1_lp], inl ValueError) /\
  outcome (main (scripted_linprog result_30_60 result_short)) =
  inl ValueError.
Proof.
  split.
  - apply (proj1 (malformed_result_raises
                    (scripted_linprog result_short result_plan)));
      [reflexivity | discriminate].
  - destruct (proj2 (malformed_result_raises
                       (scripted_linprog result_30_60 result_short))
                eq_refl ltac:(discriminate)) as [_ H].
    rewrite H. reflexivity.
Defined.

(** X10.  The main program is the two tasks in sequence: its output is the
    title, Task 1's output, the separator, Task 2's output and the footer,
    and it ends with both results; an exception in either task ends the
    program at that point with that exception. *)
Theorem main_sequences_tasks linprog :
  match outcome (solve_task1 linprog), outcome (solve_task2 linprog) with
  | inl e, _ =>
      main linprog = (Title :: output (solve_task1 linprog), inl e)
  | inr _, inl e =>
      main linprog =
      (Title :: output (solve_task1 linprog)
       ++ Separator :: output (solve_task2 linprog), inl e)
  | inr result1, inr result2 =>
      main linprog =
      (Title :: output (solve_task1 linprog)
       ++ Separator :: output (solve_task2 linprog) ++ [Footer],
       inr (result1, result2))
  end.
Proof.
  rewrite main_unfold.
  destruct (solve_task1 linprog) as [out1 [e1 | r1]];
    destruct (solve_task2 linprog) as [out2 [e2 | r2]];
    unfold prepend, bind, output, outcome; simpl;
    rewrite ?app_nil_r; reflexivity.
Qed.

(** ** Solver calls and saved figures *)

Lemma route_lines_effects (routes : list route) :
  calls (used_lines routes) = [] /\ calls (unused_lines routes) = [] /\
  figures (used_lines routes) = [] /\ figures (unused_lines routes) = [].
Proof.
  unfold used_lines, unused_lines, calls, figures.
  induction routes as [|r routes (IH1 & IH2 & IH3 & IH4)];
    [repeat split|].
  destruct (route_used_dichotomy r) as (E1 & E2 & _).
  simpl. rewrite !flat_map_app, IH1, IH2, IH3, IH4, E1, E2.
  destruct r as [[[w b] qty] cost].
  destruct (route_used (w, b, qty, cost)); repeat split.
Qed.

Lemma solve_task1_effects linprog :
  calls (output (solve_task1 linprog)) = [task1_lp] /\
  figures (output (solve_task1 linprog)) =
  match outcome (solve_task1 linprog) with
  | inr (Some _) => ["task1.png"%string]
  | _ => []
  end.
Proof.
  destruct (res_success (linprog task1_lp)) eqn:Hs.
  - destruct (res_x (linprog task1_lp)) as [|a [|b [|c v]]] eqn:Hx.
    + rewrite solve_task1_raises by (rewrite ?Hx; easy). split; reflexivity.
    + rewrite solve_task1_raises by (rewrite ?Hx; easy). split; reflexivity.
    + rewrite (solve_task1_success linprog a b Hs Hx). split; reflexivity.
    + rewrite solve_task1_raises by (rewrite ?Hx; easy). split; reflexivity.
  - rewrite (solve_task1_failure linprog Hs). split; reflexivity.
Qed.

Lemma solve_task2_effects linprog :
  calls (output (solve_task2 linprog)) = [task2_lp] /\
  figures (output (solve_task2 linprog)) =
  match outcome (solve_task2 linprog) with
  | inr (Some _) => ["task2.png"%string]
  | _ => []
  end.
Proof.
  destruct (res_success (linprog task2_lp)) eqn:Hs.
  - destruct (Nat.eq_dec (length (res_x (linprog task2_lp))) 6) as [Hl | Hl].
    + destruct (length_6 _ Hl) as (a & b & c & d & e & f & Hx).
      rewrite (solve_task2_success linprog _ _ _ _ _ _ Hs Hx).
      destruct (route_lines_effects (routes_of (a, b, c, d, e, f)))
        as (C1 & C2 & F1 & F2).
      unfold output, outcome, fst, snd. split.
      * unfold calls in *. rewrite !flat_map_app, C1, C2. reflexivity.
      * unfold figures in *. rewrite !flat_map_app, F1, F2. reflexivity.
    + rewrite (solve_task2_raises linprog Hs Hl). split; reflexivity.
  - rewrite (solve_task2_failure linprog Hs). split; reflexivity.
Qed.

(** X11.  Whatever the solver answers, each task calls it exactly once,
    with its own program (there is no retry and no second formulation), and
    saves its chart exactly when it returns a result.  The main program
    calls the solver for Task 1 and then, unless Task 1 raised, for Task 2. *)
Theorem one_call_and_one_figure linprog :
  calls (output (solve_task1 linprog)) = [task1_lp] /\
  calls (output (solve_task2 linprog)) = [task2_lp] /\
  figures (output (solve_task1 linprog)) =
  match outcome (solve_task1 linprog) with
  | inr (Some _) => ["task1.png"%string]
  | _ => []
  end /\
  figures (output (solve_task2 linprog)) =
  match outcome (solve_task2 linprog) with
  | inr (Some _) => ["task2.png"%string]
  | _ => []
  end /\
  calls (output (main linprog)) =
  task1_lp :: match outcome (solve_task1 linprog) with
              | inl _ => []
              | inr _ => [task2_lp]
              end.
Proof.
  destruct (solve_task1_effects linprog) as [C1 F1].
  destruct (solve_task2_effects linprog) as [C2 F2].
  repeat split; try assumption.
  rewrite main_output. unfold calls in *.
  change (flat_map ?f (Title :: ?l)) with (flat_map f l).
  rewrite flat_map_app, C1.
  destruct (outcome (solve_task1 linprog)) as [e1 | r1]; [reflexivity|].
  change (flat_map ?f (Separator :: ?l)) with (flat_map f l).
  rewrite flat_map_app, C2.
  destruct (outcome (solve_task2 linprog)); reflexivity.
Qed.

(** ** The reports under the solver's contract *)

(** X12.  With a solver that meets its contract, every plan Task 2 can
    report has the form [t, 150 - t, 0, 120 - t, 30 + t, 100] with
    [0 <= t <= 120], and every plan of that form is optimal.  So the report
    always lists warehouse 1 to Gamma as unused and the routes warehouse 1
    to Beta, warehouse 2 to Beta and warehouse 2 to Gamma as used; only the
    split of Alpha's 120 tonnes between the warehouses is left open. *)
Theorem task2_report_under_contract linprog :
  linprog_spec task2_lp (linprog task2_lp) ->
  (exists x11 x12 x13 x21 x22 x23,
      let out := output (solve_task2 linprog) in
      res_x (linprog task2_lp) = [x11; x12; x13; x21; x22; x23] /\
      0 <= x11 /\ x11 <= 120 /\
      x12 == 150 - x11 /\ x13 == 0 /\ x21 == 120 - x11 /\
      x22 == 30 + x11 /\ x23 == 100 /\
      In (UnusedRoute Sklad1 Gamma x13 10) out /\
      In (UsedRoute Sklad1 Beta x12 6 (x12 * inject_Z 6)) out /\
      In (UsedRoute Sklad2 Beta x22 7 (x22 * inject_Z 7)) out /\
      In (UsedRoute Sklad2 Gamma x23 5 (x23 * inject_Z 5)) out) /\
  (forall t, 0 <= t -> t <= 120 ->
     optimal task2_lp [t; 150 - t; 0; 120 - t; 30 + t; 100]).
Proof.
  intros Hspec. split.
  - destruct (task2_contract linprog Hspec)
      as (Hs & x11 & x12 & x13 & x21 & x22 & x23 & Hx & H).
    exists x11, x12, x13, x21, x22, x23. cbv zeta.
    split; [assumption|].
    repeat (split; [lra|]).
    split; [|split; [|split]].
    + apply (unused_route_in_output linprog _ _ _ _ _ _ _ _ _ _ Hs Hx).
      apply in_unused_lines. exists Sklad1, Gamma, x13, 10%Z.
      split; [simpl; tauto|]. split; [unfold tol; lra | reflexivity].
    + apply (used_route_in_output linprog _ _ _ _ _ _ _ _ _ _ _ Hs Hx).
      apply in_used_lines. exists Sklad1, Beta, x12, 6%Z.
      split; [simpl; tauto|]. split; [unfold tol; lra | reflexivity].
    + apply (used_route_in_output linprog _ _ _ _ _ _ _ _ _ _ _ Hs Hx).
      apply in_used_lines. exists Sklad2, Beta, x22, 7%Z.
      split; [simpl; tauto|]. split; [unfold tol; lra | reflexivity].
    + apply (used_route_in_output linprog _ _ _ _ _ _ _ _ _ _ _ Hs Hx).
      apply in_used_lines. exists Sklad2, Gamma, x23, 5%Z.
      split; [simpl; tauto|]. split; [unfold tol; lra | reflexivity].
  - intros t Ht0 Ht1. apply optimal_task2_iff.
    exists t, (150 - t), 0, (120 - t), (30 + t), 100.
    repeat split; lra.
Qed.

Lemma task2_report_under_contract_witness :
  optimal task2_lp [60; 150 - 60; 0; 120 - 60; 30 + 60; 100].
Proof.
  apply (proj2 (task2_report_under_contract
                  (scripted_linprog result_30_60 result_plan)
                  result_plan_meets_contract) 60); lra.
Defined.

(** ** The axes of the Task 1 chart and the rows of Task 2 *)

(** X14.  The axis limits of the Task 1 chart show the whole feasible
    region, and for every optimal point the anchor of the profit annotation
    also falls inside the axes. *)
Theorem chart_window_shows_region (x1 x2 : Q) :
  (feasible task1_lp [x1; x2] -> in_window (x1, x2)) /\
  (optimal task1_lp [x1; x2] -> in_window (annotation_xytext (x1, x2))).
Proof.
  unfold in_window, annotation_xytext, task1_xlim, task1_ylim. simpl. split.
  - intros H. apply feasible_task1_iff in H
      as (y1 & y2 & E & H1 & H2 & H3 & H4).
    injection E as <- <-. repeat split; lra.
  - intros H. apply optimal_task1_iff in H
      as (y1 & y2 & E & H1 & H2 & H3 & H4).
    injection E as <- <-. repeat split; lra.
Qed.

Lemma chart_window_shows_region_witness :
  in_window (0, 75) /\ in_window (annotation_xytext (120, 0)).
Proof.
  split.
  - apply (proj1 (chart_window_shows_region 0 75)). reflexivity.
  - apply (proj2 (chart_window_shows_region 120 0)).
    apply optimal_task1_iff. exists 120, 0. repeat split; lra.
Defined.

(** X15.  The five equality rows of Task 2 are dependent: a vector that
    satisfies the two warehouse rows and the rows of Alpha and Beta also
    satisfies the row of Gamma, so dropping the last row of [A_eq] and
    [b_eq] leaves the feasible set unchanged. *)
Theorem gamma_row_redundant (xv : vec) :
  feasible (mkLP (lp_c task2_lp) [] []
                 (removelast (lp_A_eq task2_lp)) (removelast (lp_b_eq task2_lp))
                 (lp_bounds task2_lp)) xv
  <-> feasible task2_lp xv.
Proof.
  rewrite feasible_task2_iff. unfold feasible, feasibleb, in_bound. split.
  - destruct xv as [|x11 [|x12 [|x13 [|x21 [|x22 [|x23 [|x7 t]]]]]]];
      simpl; try discriminate.
    rewrite !andb_true_iff, !Qle_bool_iff, !Qeq_bool_iff.
    intros H. exists x11, x12, x13, x21, x22, x23. repeat split; try lra.
  - intros (x11 & x12 & x13 & x21 & x22 & x23 & -> & H). simpl.
    rewrite !andb_true_iff, !Qle_bool_iff, !Qeq_bool_iff.
    repeat split; try lra.
Qed.

(** ** Task 1 at the vertex (30, 60) *)

Lemma abs_bounds (a b e : Q) : Qabs (a - b) <= e <-> b - e <= a /\ a <= b + e.
Proof.
  rewrite Qabs_Qle_condition. split; intros [H1 H2]; split; lra.
Qed.



(** ** The balance step of Task 2 *)



(** ** The deficient resources near the edge of optima *)

(** X13.  When the solver returns a point whose CPU usage is within 1e-7 of
    240, Task 1 always lists CPU time as deficient, so the list is never
    empty; it lists the accumulators as well when [x1] is within 2e-6 of 30,
    and CPU time alone when [x1] is at least [30 + 4e-6]. *)
Theorem task1_deficient_near_optimum linprog x1 x2 :
  res_success (linprog task1_lp) = true ->
  res_x (linprog task1_lp) = [x1; x2] ->
  Qabs (2 * x1 + 3 * x2 - 240) <= 1 # 10000000 ->
  exists deficient,
    In (Deficient deficient) (output (solve_task1 linprog)) /\
    In CpuTime deficient /\
    (Qabs (x1 - 30) <= 2 # 1000000 -> deficient = [CpuTime; Battery]) /\
    (30 + (4 # 1000000) <= x1 -> deficient = [CpuTime]).
Proof.
  intros Hs Hx Hc. apply abs_bounds in Hc.
  assert (Bc : binding (2 * x1 + 3 * x2) 240 = true).
  { apply binding_bounds. unfold tol. lra. }
  exists ([CpuTime] ++ (if binding (x1 + 2 * x2) 150 then [Battery] else [])).
  rewrite (solve_task1_success linprog x1 x2 Hs Hx), Bc.
  unfold output, fst.
  split; [simpl; tauto|]. split; [simpl; tauto|].
  destruct (binding (x1 + 2 * x2) 150) eqn:Bb.
  - split; [reflexivity|]. intros Hx1.
    apply binding_bounds in Bb. unfold tol in Bb. lra.
  - split; [|reflexivity]. intros Hx1. apply abs_bounds in Hx1.
    assert (Bb' : binding (x1 + 2 * x2) 150 = true).
    { apply binding_bounds. unfold tol. split; lra. }
    congruence.
Qed.

Lemma task1_deficient_near_optimum_witness :
  exists deficient,
    In (Deficient deficient)
       (output (solve_task1 (scripted_linprog result_120_0 result_plan))) /\
    deficient = [CpuTime].
Proof.
  assert (Hc : Qabs (2 * 120 + 3 * 0 - 240) <= 1 # 10000000).
  { apply abs_bounds. split; lra. }
  destruct (task1_deficient_near_optimum
              (scripted_linprog result_120_0 result_plan) 120 0
              eq_refl eq_refl Hc)
    as (d & Hin & _ & _ & Hd).
  exists d. split; [exact Hin|]. apply Hd. lra.
Defined.
